(** * micro-api-gateway-middleware: a shallow embedding of the verifier

    The repository ships one protocol in four revisions:
    - [src/index.js]                      whitelist canonicalisation, environment bypass;
    - [src/unnamed/part_000], first file  all-headers-except canonicalisation, no
                                          header-presence gates, key fetch not guarded;
    - [src/unnamed/part_000], second file all-headers-except canonicalisation, guarded fetch;
    - [src/unnamed/part_001]              whitelist canonicalisation, [skip_verification] option.

    JavaScript values are modelled as the code uses them: header maps are
    insertion-ordered association lists, numbers are integers extended with
    [NaN], exceptions are an explicit [Throw] outcome, and the closure
    variables, the response object and the calls made to external
    collaborators are threaded through a small state-and-exception monad.
    A call of the verifier runs to its end before the next one starts. *)

From Stdlib Require Import ZArith NArith String Ascii List Bool Lia.
From Stdlib Require Import Permutation DecimalString.
Import ListNotations.

Open Scope string_scope.
Open Scope Z_scope.

(* ------------------------------------------------------------------ *)
(** ** JavaScript values *)

(** A JavaScript number as the middleware uses it: an integer count of
    milliseconds (exact in a double below 2^53, as times since the epoch
    are), or [NaN] when [parseInt] finds no digits. *)
Inductive number : Type :=
| NaN : number
| Num : Z -> number.

(** [a - b] on numbers: [NaN] is absorbing. *)
Definition num_sub (a b : number) : number :=
  match a, b with
  | Num x, Num y => Num (x - y)
  | _, _ => NaN
  end.

(** [a > b] on numbers: every comparison with [NaN] is [false]. *)
Definition num_gt (a b : number) : bool :=
  match a, b with
  | Num x, Num y => x >? y
  | _, _ => false
  end.

(** A header value as Node hands it over: a string, or an array of strings
    for a repeated header. An absent header is [undefined], modelled as
    [None] at lookup. *)
Inductive hval : Type :=
| HStr : string -> hval
| HArr : list string -> hval.

(** [typeof v === 'string'] for a looked-up header. *)
Definition is_string (v : option hval) : option string :=
  match v with
  | Some (HStr s) => Some s
  | _ => None
  end.

(** Truthiness of a value that is [null] or a string: [null] and the empty
    string are falsy. *)
Definition truthy (v : option string) : bool :=
  match v with
  | Some (String _ _) => true
  | _ => false
  end.

(** [s !== v] for a string [s] and a looked-up header [v]. *)
Definition strict_neq (s : string) (v : option hval) : bool :=
  match v with
  | Some (HStr h) => negb (String.eqb s h)
  | _ => true
  end.

(** [String(v)], the conversion [parseInt] applies to its argument. *)
Definition to_String (v : option hval) : string :=
  match v with
  | None => "undefined"
  | Some (HStr s) => s
  | Some (HArr l) => String.concat "," l
  end.

(* ------------------------------------------------------------------ *)
(** ** Objects with string keys, in insertion order *)

Definition jsobj (V : Type) : Type := list (string * V).

Fixpoint obj_get {V} (o : jsobj V) (k : string) : option V :=
  match o with
  | [] => None
  | (k', v) :: o' => if String.eqb k' k then Some v else obj_get o' k
  end.

(** [o[k] = v]: an existing key keeps its position, a new key goes last. *)
Fixpoint obj_set {V} (o : jsobj V) (k : string) (v : V) : jsobj V :=
  match o with
  | [] => [(k, v)]
  | (k', v') :: o' =>
      if String.eqb k' k then (k', v) :: o' else (k', v') :: obj_set o' k v
  end.

(** [delete o[k]]. *)
Fixpoint obj_delete {V} (o : jsobj V) (k : string) : jsobj V :=
  match o with
  | [] => []
  | (k', v) :: o' =>
      if String.eqb k' k then obj_delete o' k else (k', v) :: obj_delete o' k
  end.

(** [Object.keys(o)]. *)
Definition obj_keys {V} (o : jsobj V) : list string := map fst o.

(** A well-formed object has no repeated key. *)
Definition obj_wf {V} (o : jsobj V) : Prop := NoDup (obj_keys o).

(* ------------------------------------------------------------------ *)
(** ** Built-ins the middleware calls *)

Definition dquote : ascii := "034"%char.
Definition backslash : ascii := "092"%char.

Definition hex_digit (n : N) : ascii :=
  match n with
  | 0%N => "0" | 1%N => "1" | 2%N => "2" | 3%N => "3" | 4%N => "4"
  | 5%N => "5" | 6%N => "6" | 7%N => "7" | 8%N => "8" | 9%N => "9"
  | 10%N => "a" | 11%N => "b" | 12%N => "c" | 13%N => "d" | 14%N => "e"
  | _ => "f"
  end%char.

(** The escape [JSON.stringify] writes for one character of a string. *)
Definition json_escape (c : ascii) : string :=
  let n := N_of_ascii c in
  if (n =? 34)%N then String backslash (String dquote "")
  else if (n =? 92)%N then String backslash (String backslash "")
  else if (n =? 8)%N then String backslash "b"
  else if (n =? 9)%N then String backslash "t"
  else if (n =? 10)%N then String backslash "n"
  else if (n =? 12)%N then String backslash "f"
  else if (n =? 13)%N then String backslash "r"
  else if (n <? 32)%N then
    String backslash
      (String "u" (String "0" (String "0"
        (String (hex_digit (n / 16)) (String (hex_digit (n mod 16)) "")))))
  else String c "".

Fixpoint json_escape_all (s : string) : string :=
  match s with
  | EmptyString => EmptyString
  | String c r => json_escape c ++ json_escape_all r
  end.

(** [JSON.stringify(s)] for a string [s]. *)
Definition JSON_stringify_string (s : string) : string :=
  String dquote (json_escape_all s ++ String dquote "").

(** [JSON.stringify(v)] for a header value. *)
Definition JSON_stringify_hval (v : hval) : string :=
  match v with
  | HStr s => JSON_stringify_string s
  | HArr l => "[" ++ String.concat "," (map JSON_stringify_string l) ++ "]"
  end.

(** [JSON.stringify({ error: e, message: m })], the body of every failure
    response. *)
Definition JSON_stringify_error (e m : string) : string :=
  "{" ++ JSON_stringify_string "error" ++ ":" ++ JSON_stringify_string e
      ++ "," ++ JSON_stringify_string "message" ++ ":" ++ JSON_stringify_string m
      ++ "}".

(** Insertion of a key into a list sorted by code-unit order, and the sort
    [Array.prototype.sort] performs on a list of distinct keys. *)
Fixpoint insert_key (k : string) (l : list string) : list string :=
  match l with
  | [] => [k]
  | k' :: l' => if String.leb k k' then k :: l else k' :: insert_key k l'
  end.

Definition sort_keys (l : list string) : list string :=
  fold_right insert_key [] l.

(** Modelled from the spec: [json-stable-stringify] is an npm dependency
    whose text is not under [src/]. The spec asks for a deterministic
    serialisation with the object keys sorted; this is the dependency's
    output on a flat object of header values: an opening brace, the
    [key:value] pairs separated by commas with the keys in sorted order
    ([Object.keys( node ).sort()]), every key and value written as
    [JSON.stringify] writes it, and a closing brace. *)
Definition json_stable_stringify (o : jsobj hval) : string :=
  "{" ++ String.concat ","
           (flat_map (fun k =>
                        match obj_get o k with
                        | Some v => [JSON_stringify_string k ++ ":" ++ JSON_stringify_hval v]
                        | None => []
                        end)
                     (sort_keys (obj_keys o)))
      ++ "}".

(** White space that [parseInt] skips, among the characters a header can
    carry. *)
Definition is_white (c : ascii) : bool :=
  let n := N_of_ascii c in
  ((n =? 9) || (n =? 10) || (n =? 11) || (n =? 12) || (n =? 13)
   || (n =? 32) || (n =? 160))%N.

Fixpoint skip_white (s : string) : string :=
  match s with
  | String c r => if is_white c then skip_white r else s
  | EmptyString => s
  end.

(** The value of a character read as a digit: [0-9], [a-z], [A-Z]. *)
Definition digit_value (c : ascii) : option Z :=
  let n := Z.of_N (N_of_ascii c) in
  if (48 <=? n) && (n <=? 57) then Some (n - 48)
  else if (97 <=? n) && (n <=? 122) then Some (n - 87)
  else if (65 <=? n) && (n <=? 90) then Some (n - 55)
  else None.

(** The longest prefix of digits of the radix, read as a number; [None]
    when there is no such digit. *)
Fixpoint parse_digits (radix : Z) (s : string) (acc : option Z) : option Z :=
  match s with
  | EmptyString => acc
  | String c r =>
      match digit_value c with
      | Some d =>
          if d <? radix
          then parse_digits radix r
                 (Some (match acc with Some a => a * radix + d | None => d end))
          else acc
      | None => acc
      end
  end.

(** [parseInt(s)] with no radix argument. *)
Definition parseInt_string (s : string) : number :=
  let s1 := skip_white s in
  let '(sign, s2) :=
    match s1 with
    | String "-" r => (-1, r)
    | String "+" r => (1, r)
    | _ => (1, s1)
    end in
  let '(radix, s3) :=
    match s2 with
    | String "0" (String "x" r) => (16, r)
    | String "0" (String "X" r) => (16, r)
    | _ => (10, s2)
    end in
  match parse_digits radix s3 None with
  | None => NaN
  | Some v => Num (sign * v)
  end.

(** [parseInt(v)] for a looked-up header. *)
Definition parseInt (v : option hval) : number :=
  parseInt_string (to_String v).

(** Modelled from the spec: the [httpstatuses] table is an npm dependency
    whose text is not under [src/]; the spec gives 500 for a missing key
    ([internal_server_error]) and 400 for every other failure
    ([bad_request]). *)
Definition internal_server_error : Z := 500.
Definition bad_request : Z := 400.

(* ------------------------------------------------------------------ *)
(** ** Configuration *)

Record header_names : Type := {
  time : string;
  hash : string;
  signature : string
}.

(** The merged [options] object. [skip_verification] is read by
    [src/unnamed/part_001] only, [headers_to_verify] by the two whitelist
    revisions only. *)
Record options : Type := {
  headers : header_names;
  headers_to_verify : list string;
  public_key_endpoint : option string;
  public_key : option string;
  grace_period : Z;
  skip_verification : bool
}.

(** What the caller passes as [_options]: any subset of the fields. *)
Record user_options : Type := {
  u_headers : option header_names;
  u_headers_to_verify : option (list string);
  u_public_key_endpoint : option string;
  u_public_key : option string;
  u_grace_period : option Z;
  u_skip_verification : option bool
}.

Definition default_headers : header_names := {|
  time := "x-micro-api-gateway-signature-time";
  hash := "x-micro-api-gateway-request-hash";
  signature := "x-micro-api-gateway-signature"
|}.

Definition default_options : options := {|
  headers := default_headers;
  headers_to_verify := [];
  public_key_endpoint := None;
  public_key := None;
  grace_period := 1000 * 60 * 5;
  skip_verification := false
|}.

Definition or_default {A} (u : option A) (d : A) : A :=
  match u with Some a => a | None => d end.

(** [Object.assign( defaults, _options )]. *)
Definition Object_assign (d : options) (u : user_options) : options := {|
  headers := or_default (u_headers u) (headers d);
  headers_to_verify := or_default (u_headers_to_verify u) (headers_to_verify d);
  public_key_endpoint :=
    match u_public_key_endpoint u with Some e => Some e | None => public_key_endpoint d end;
  public_key :=
    match u_public_key u with Some k => Some k | None => public_key d end;
  grace_period := or_default (u_grace_period u) (grace_period d);
  skip_verification := or_default (u_skip_verification u) (skip_verification d)
|}.

(* ------------------------------------------------------------------ *)
(** ** Requests, responses and the outside world *)

Record request : Type := {
  method : string;
  url : string;
  req_headers : jsobj hval
}.

(** The response object: its status code, the headers set on it and the
    bodies handed to [end], oldest first. *)
Record response : Type := {
  statusCode : Z;
  res_headers : jsobj string;
  ended : list string
}.

(** A thrown JavaScript error, with its [message]. *)
Inductive error : Type :=
| Error : string -> error.

Definition message (e : error) : string :=
  match e with Error m => m end.

(** How a computation ends: with a value or with a thrown error. *)
Inductive outcome (A : Type) : Type :=
| Ret : A -> outcome A
| Throw : error -> outcome A.
Arguments Ret {A} _.
Arguments Throw {A} _.

(** What [await fetch( url )] does: the promise rejects, or it resolves to
    a response with its [ok] flag, its [status] and what [text()] gives. *)
Inductive fetch_outcome : Type :=
| FetchRejects : error -> fetch_outcome
| FetchResponds : bool -> Z -> outcome string -> fetch_outcome.

(** The [crypto] module as the middleware uses it: the base64 SHA-256
    digest of a string, and the RSA-SHA256 check of a base64 signature over
    a string under a key, which throws when it cannot use its arguments. *)
Record crypto : Type := {
  createHash_SHA256_base64 : string -> string;
  createVerify_RSA_SHA256 : string -> string -> string -> outcome bool
}.

(** What one call of the middleware reads from its surroundings: the
    environment variables, the clock at its two readings and the answer of
    the key endpoint should it be asked. *)
Record world : Type := {
  SKIP_GATEWAY_VERIFICATION : option string;
  API_GATEWAY_MIDDLEWARE_DEBUG : option string;
  now_get_public_key : Z;
  fetch_reply : fetch_outcome;
  now_middleware : Z
}.

(** Calls made to external collaborators. *)
Inductive call : Type :=
| CallGetPublicKey : call
| CallFetch : option string -> call
| CallWarn : string -> call
| CallLog : string -> call
| CallStableStringify : jsobj hval -> call
| CallCreateHash : string -> call
| CallCreateVerify : string -> string -> option hval -> call.

(** The state a call works on: the two closure variables of the verifier,
    the response object it was handed, and the calls made so far. *)
Record state : Type := {
  fetched_public_key : option string;
  last_public_key_update : Z;
  resp : response;
  calls : list call
}.

(** The closure variables as the factory initialises them. *)
Definition initial_state (r : response) : state := {|
  fetched_public_key := None;
  last_public_key_update := 0;
  resp := r;
  calls := []
|}.

(* ------------------------------------------------------------------ *)
(** ** A state-and-exception monad *)

Definition M (A : Type) : Type := state -> outcome A * state.

Definition ret {A} (a : A) : M A := fun s => (Ret a, s).

Definition throw {A} (e : error) : M A := fun s => (Throw e, s).

Definition bind {A B} (m : M A) (k : A -> M B) : M B :=
  fun s =>
    match m s with
    | (Ret a, s') => k a s'
    | (Throw e, s') => (Throw e, s')
    end.

(** [try { m } catch ( ex ) { h ex }]. *)
Definition try_catch {A} (m : M A) (h : error -> M A) : M A :=
  fun s =>
    match m s with
    | (Ret a, s') => (Ret a, s')
    | (Throw e, s') => h e s'
    end.

Declare Scope js_scope.
Delimit Scope js_scope with js.
Notation "x <- m ;; k" := (bind m (fun x => k))
  (at level 100, m at next level, right associativity) : js_scope.
Notation "m ;;; k" := (bind m (fun _ => k))
  (at level 100, right associativity) : js_scope.
Open Scope js_scope.

Definition get : M state := fun s => (Ret s, s).

Definition set_fetched_public_key (k : option string) : M unit :=
  fun s => (Ret tt, {| fetched_public_key := k;
                       last_public_key_update := last_public_key_update s;
                       resp := resp s; calls := calls s |}).

Definition set_last_public_key_update (t : Z) : M unit :=
  fun s => (Ret tt, {| fetched_public_key := fetched_public_key s;
                       last_public_key_update := t;
                       resp := resp s; calls := calls s |}).

Definition update_response (f : response -> response) : M unit :=
  fun s => (Ret tt, {| fetched_public_key := fetched_public_key s;
                       last_public_key_update := last_public_key_update s;
                       resp := f (resp s); calls := calls s |}).

Definition record (c : call) : M unit :=
  fun s => (Ret tt, {| fetched_public_key := fetched_public_key s;
                       last_public_key_update := last_public_key_update s;
                       resp := resp s; calls := calls s ++ [c] |}).

(** Lifting an outcome computed outside the state. *)
Definition lift {A} (o : outcome A) : M A := fun s => (o, s).

(** [response.statusCode = c]. *)
Definition set_statusCode (c : Z) : M unit :=
  update_response (fun r => {| statusCode := c; res_headers := res_headers r;
                               ended := ended r |}).

(** [response.setHeader( n, v )]. *)
Definition setHeader (n v : string) : M unit :=
  update_response (fun r => {| statusCode := statusCode r;
                               res_headers := obj_set (res_headers r) n v;
                               ended := ended r |}).

(** [response.end( body )]. *)
Definition response_end (body : string) : M unit :=
  update_response (fun r => {| statusCode := statusCode r;
                               res_headers := res_headers r;
                               ended := ended r ++ [body] |}).

Definition console_warn (m : string) : M unit := record (CallWarn m).
Definition console_log (m : string) : M unit := record (CallLog m).

(* ------------------------------------------------------------------ *)
(** ** The key provider *)

Definition string_of_Z (z : Z) : string := NilZero.string_of_int (Z.to_int z).

(** [await fetch( url )], giving [ok], [status] and what [text()] will do. *)
Definition fetch (u : option string) (w : world) : M (bool * Z * outcome string) :=
  record (CallFetch u) ;;;
  match fetch_reply w with
  | FetchRejects e => throw e
  | FetchResponds ok status text => ret (ok, status, text)
  end.

(** [ex && ex.message ? ex.message : ex] as [console.warn] prints it. *)
Definition warn_text (ex : error) : string :=
  match message ex with
  | EmptyString => "Error"
  | m => m
  end.

(** [get_public_key] of [src/index.js], lines 32-62; the second file of
    [src/unnamed/part_000] and [src/unnamed/part_001] have the same text. *)
Definition get_public_key (options : options) (w : world) : M (option string) :=
  record CallGetPublicKey ;;;
  if truthy (public_key options) then ret (public_key options)
  else
    let now := now_get_public_key w in
    s <- get ;;
    let time_since_last_public_key_update := now - last_public_key_update s in
    if negb (truthy (fetched_public_key s))
       || (time_since_last_public_key_update >? grace_period options)
    then
      set_fetched_public_key None ;;;
      try_catch
        (public_key_request <- fetch (public_key_endpoint options) w ;;
         let '(ok, status, text) := public_key_request in
         k <- (if ok : bool then (t <- lift text ;; ret (Some t)) else ret None) ;;
         set_fetched_public_key k ;;;
         if negb ok
         then console_warn
                ("Failed to fetch api gateway public key. (HTTP response code: "
                   ++ string_of_Z status ++ ")")
         else ret tt)
        (fun ex =>
           set_fetched_public_key None ;;;
           console_warn (warn_text ex)) ;;;
      s1 <- get ;;
      (if truthy (fetched_public_key s1)
       then set_last_public_key_update now
       else ret tt) ;;;
      s2 <- get ;;
      ret (fetched_public_key s2)
    else ret (fetched_public_key s).

(** [get_public_key] of the first file of [src/unnamed/part_000], lines
    27-47: the fetch is not inside a [try]. *)
Definition get_public_key_0 (options : options) (w : world) : M (option string) :=
  record CallGetPublicKey ;;;
  if truthy (public_key options) then ret (public_key options)
  else
    let now := now_get_public_key w in
    s <- get ;;
    let time_since_last_public_key_update := now - last_public_key_update s in
    if negb (truthy (fetched_public_key s))
       || (time_since_last_public_key_update >? grace_period options)
    then
      public_key_request <- fetch (public_key_endpoint options) w ;;
      let '(ok, status, text) := public_key_request in
      if negb ok
      then
        set_fetched_public_key None ;;;
        s1 <- get ;;
        ret (fetched_public_key s1)
      else
        t <- lift text ;;
        set_fetched_public_key (Some t) ;;;
        set_last_public_key_update now ;;;
        s1 <- get ;;
        ret (fetched_public_key s1)
    else ret (fetched_public_key s).

(* ------------------------------------------------------------------ *)
(** ** Canonicalisation *)

(** The whitelist selection of [src/index.js], lines 106-111: the [reduce]
    over [options.headers_to_verify]. *)
Definition headers_to_verify_whitelist (options : options) (request : request)
  : jsobj hval :=
  fold_left
    (fun _headers_to_verify header =>
       match obj_get (req_headers request) header with
       | Some v => obj_set _headers_to_verify header v
       | None => _headers_to_verify
       end)
    (headers_to_verify options) [].

(** The selection of [src/unnamed/part_000], lines 63-67: a copy of all the
    request headers with four names deleted. The copy [extend] makes of a
    header map is the same map. *)
Definition headers_to_verify_all_except (options : options) (request : request)
  : jsobj hval :=
  let headers_to_verify := req_headers request in
  let headers_to_verify := obj_delete headers_to_verify (hash (headers options)) in
  let headers_to_verify := obj_delete headers_to_verify (signature (headers options)) in
  let headers_to_verify := obj_delete headers_to_verify "connection" in
  obj_delete headers_to_verify "transfer-encoding".

(** [[ request.method, request.url, json_stable_stringify( h ) ].join( ':::' )]. *)
Definition request_as_string (request : request) (h : jsobj hval) : string :=
  String.concat ":::" [method request; url request; json_stable_stringify h].

(** The canonical string with the call to the serialiser recorded. *)
Definition canonicalize (request : request) (h : jsobj hval) : M string :=
  record (CallStableStringify h) ;;;
  ret (request_as_string request h).

(** [crypto.createHash( 'SHA256' ).update( s ).digest( 'base64' )]. *)
Definition request_hash_of (C : crypto) (s : string) : M string :=
  record (CallCreateHash s) ;;;
  ret (createHash_SHA256_base64 C s).

(** [crypto.createVerify( 'RSA-SHA256' ).update( h ).verify( key, sig, 'base64' )].
    A signature argument that is not a string makes [verify] throw. *)
Definition verify_signature (C : crypto) (h : string) (key : option string)
    (sig : option hval) : M bool :=
  let key := or_default key "" in
  record (CallCreateVerify h key sig) ;;;
  match sig with
  | Some (HStr sg) => lift (createVerify_RSA_SHA256 C h key sg)
  | _ => throw (Error "The signature argument must be of type string")
  end.

(* ------------------------------------------------------------------ *)
(** ** The verifier *)

(** The block every failing gate runs: status, content type, JSON body,
    [return false]. [ct] is the header name as the revision spells it. *)
Definition fail (ct : string) (code : Z) (e m : string) : M bool :=
  set_statusCode code ;;;
  setHeader ct "application/json" ;;;
  response_end (JSON_stringify_error e m) ;;;
  ret false.

Definition e_missing_key : string := "missing public key".
Definition e_missing_hash : string := "missing or malformed request hash".
Definition e_missing_signature : string := "missing or malformed request hash signature".
Definition e_expired : string := "expired request".
Definition e_invalid_hash : string := "invalid request hash".
Definition e_invalid_signature : string := "invalid request hash signature".

Definition m_missing_key : string :=
  "Could not obtain public key from provided endpoint.".
Definition m_missing_hash : string :=
  "The request does not have a proper request hash header.".
Definition m_missing_signature : string :=
  "The request does not have a proper request hash signature header.".
Definition m_expired : string :=
  "The request from the API gateway has expired.".
Definition m_invalid_hash : string :=
  "The request from the API gateway has an invalid request hash.".
Definition m_invalid_signature : string :=
  "The request hash from the API gateway could not be verified.".

(** [now - parseInt( request.headers[ options.headers.time ] )]. *)
Definition time_delta (options : options) (w : world) (request : request) : number :=
  num_sub (Num (now_middleware w))
          (parseInt (obj_get (req_headers request) (time (headers options)))).

(** The two [console.log] lines behind [API_GATEWAY_MIDDLEWARE_DEBUG]. *)
Definition debug_log (w : world) (request_as_string request_hash : string) : M unit :=
  if truthy (API_GATEWAY_MIDDLEWARE_DEBUG w)
  then console_log ("VERIFY REQ: " ++ request_as_string) ;;;
       console_log ("VERIFY HASH: " ++ request_hash)
  else ret tt.

(** The gates shared by the three later revisions, from the header checks
    on (lines 84-155 of [src/index.js]); [select] is the revision's header
    selection and [debug] says whether it has the debug lines. *)
Definition verify_request (C : crypto) (select : options -> request -> jsobj hval)
    (debug : bool) (options : options) (w : world) (request : request)
    (public_key : option string) : M bool :=
  let incoming_request_hash := obj_get (req_headers request) (hash (headers options)) in
  match is_string incoming_request_hash with
  | None => fail "content-type" bad_request e_missing_hash m_missing_hash
  | Some incoming_request_hash =>
  let incoming_request_hash_signature :=
    obj_get (req_headers request) (signature (headers options)) in
  match is_string incoming_request_hash_signature with
  | None => fail "content-type" bad_request e_missing_signature m_missing_signature
  | Some _ =>
  let headers_to_verify := select options request in
  request_as_string <- canonicalize request headers_to_verify ;;
  request_hash <- request_hash_of C request_as_string ;;
  (if debug then debug_log w request_as_string request_hash else ret tt) ;;;
  if num_gt (time_delta options w request) (Num (grace_period options))
  then fail "content-type" bad_request e_expired m_expired
  else if negb (String.eqb request_hash incoming_request_hash)
  then fail "content-type" bad_request e_invalid_hash m_invalid_hash
  else
    request_hash_verified <-
      verify_signature C request_hash public_key incoming_request_hash_signature ;;
    if negb request_hash_verified
    then fail "content-type" bad_request e_invalid_signature m_invalid_signature
    else ret true
  end end.

(** The verifier of [src/index.js], lines 64-156. *)
Definition middleware (C : crypto) (options : options) (w : world)
    (request : request) : M bool :=
  if truthy (SKIP_GATEWAY_VERIFICATION w) then ret true
  else
    public_key <- get_public_key options w ;;
    if negb (truthy public_key)
    then fail "content-type" internal_server_error e_missing_key m_missing_key
    else verify_request C headers_to_verify_whitelist true options w request public_key.

(** The verifier of [src/unnamed/part_001], lines 65-162. *)
Definition middleware_1 (C : crypto) (options : options) (w : world)
    (request : request) : M bool :=
  if skip_verification options
  then setHeader "x-micro-api-gateway-verification-skipped" "true" ;;; ret true
  else
    public_key <- get_public_key options w ;;
    if negb (truthy public_key)
    then fail "content-type" internal_server_error e_missing_key m_missing_key
    else verify_request C headers_to_verify_whitelist true options w request public_key.

(** The verifier of the second file of [src/unnamed/part_000]
    (lines 166-246 of the part). *)
Definition middleware_0b (C : crypto) (options : options) (w : world)
    (request : request) : M bool :=
  public_key <- get_public_key options w ;;
  if negb (truthy public_key)
  then fail "content-type" internal_server_error e_missing_key m_missing_key
  else verify_request C headers_to_verify_all_except false options w request public_key.

(** The gates of the first file of [src/unnamed/part_000] once a key is
    there (lines 63-106): no header-presence gates, the hash and signature
    headers are used as they are looked up. *)
Definition verify_request_0 (C : crypto) (options : options) (w : world)
    (request : request) (public_key : option string) : M bool :=
  let headers_to_verify := headers_to_verify_all_except options request in
  request_as_string <- canonicalize request headers_to_verify ;;
  request_hash <- request_hash_of C request_as_string ;;
  if num_gt (time_delta options w request) (Num (grace_period options))
  then fail "Content-Type" bad_request e_expired m_expired
  else
    if strict_neq request_hash (obj_get (req_headers request) (hash (headers options)))
    then fail "Content-Type" bad_request e_invalid_hash m_invalid_hash
    else
      request_hash_verified <-
        verify_signature C request_hash public_key
          (obj_get (req_headers request) (signature (headers options))) ;;
      if negb request_hash_verified
      then fail "Content-Type" bad_request e_invalid_signature m_invalid_signature
      else ret true.

(** The verifier of the first file of [src/unnamed/part_000], lines 49-107. *)
Definition middleware_0 (C : crypto) (options : options) (w : world)
    (request : request) : M bool :=
  public_key <- get_public_key_0 options w ;;
  if negb (truthy public_key)
  then fail "Content-Type" internal_server_error e_missing_key m_missing_key
  else verify_request_0 C options w request public_key.

(** The four revisions side by side. *)
Inductive revision : Type :=
| index_js : revision
| part_000_first : revision
| part_000_second : revision
| part_001 : revision.

Definition verifier (v : revision)
  : crypto -> options -> world -> request -> M bool :=
  match v with
  | index_js => middleware
  | part_000_first => middleware_0
  | part_000_second => middleware_0b
  | part_001 => middleware_1
  end.

Definition key_provider (v : revision) : options -> world -> M (option string) :=
  match v with
  | part_000_first => get_public_key_0
  | _ => get_public_key
  end.

(** Whether the revision's bypass is switched on; the two revisions of
    [src/unnamed/part_000] have none. *)
Definition bypassed (v : revision) (options : options) (w : world) : bool :=
  match v with
  | index_js => truthy (SKIP_GATEWAY_VERIFICATION w)
  | part_001 => skip_verification options
  | _ => false
  end.

Definition selection (v : revision) : options -> request -> jsobj hval :=
  match v with
  | index_js | part_001 => headers_to_verify_whitelist
  | _ => headers_to_verify_all_except
  end.

(** The gates a revision runs once the key provider has answered with a
    usable key. *)
Definition gates (v : revision) (C : crypto)
  : options -> world -> request -> option string -> M bool :=
  match v with
  | index_js | part_001 => verify_request C headers_to_verify_whitelist true
  | part_000_second => verify_request C headers_to_verify_all_except false
  | part_000_first => verify_request_0 C
  end.

(** The name under which a revision sets the content type. *)
Definition content_type (v : revision) : string :=
  match v with
  | part_000_first => "Content-Type"
  | _ => "content-type"
  end.

(* ------------------------------------------------------------------ *)
(** ** Vocabulary of the statements *)

(** The response after a failing gate has written to it. *)
Definition failed_response (ct : string) (code : Z) (e m : string)
    (r : response) : response := {|
  statusCode := code;
  res_headers := obj_set (res_headers r) ct "application/json";
  ended := ended r ++ [JSON_stringify_error e m]
|}.

(** A run that rejects: [false] is returned and the response carries the
    status [code] and a JSON body whose error kind is [e]. *)
Definition rejects (run : outcome bool * state) (before : state)
    (code : Z) (e : string) : Prop :=
  exists ct m,
    fst run = Ret false /\
    resp (snd run) = failed_response ct code e m (resp before).

(** A run that accepts: [true] is returned and the response is the one the
    caller passed in. *)
Definition accepts (run : outcome bool * state) (before : state) : Prop :=
  fst run = Ret true /\ resp (snd run) = resp before.

(** The key provider hands over the usable key [k]. *)
Definition provides (run : outcome (option string) * state) (k : string) : Prop :=
  fst run = Ret (Some k) /\ truthy (Some k) = true.

(** The hash and signature headers of a request as the verifier looks them
    up. *)
Definition hash_header (options : options) (request : request) : option hval :=
  obj_get (req_headers request) (hash (headers options)).

Definition signature_header (options : options) (request : request) : option hval :=
  obj_get (req_headers request) (signature (headers options)).

(** The digest the verifier computes for a request under a header
    selection. *)
Definition request_hash (C : crypto) (select : options -> request -> jsobj hval)
    (options : options) (request : request) : string :=
  createHash_SHA256_base64 C (request_as_string request (select options request)).

(** The six error kinds of the failure bodies. *)
Definition error_kinds : list string :=
  [e_missing_key; e_missing_hash; e_missing_signature;
   e_expired; e_invalid_hash; e_invalid_signature].

(** The gates end in acceptance, in a 400 rejection of one of five kinds
    (the kind [expired request] only when the delta exceeds the grace
    period), or in an exception. *)
Definition gates_end (C : crypto) (options : options) (w : world) (request : request)
    (v : revision) (run : outcome bool * state) (s0 : state) : Prop :=
  accepts run s0
  \/ (exists e,
        In e [e_missing_hash; e_missing_signature; e_expired;
              e_invalid_hash; e_invalid_signature]
        /\ rejects run s0 bad_request e
        /\ (e = e_expired ->
            num_gt (time_delta options w request) (Num (grace_period options)) = true))
  \/ (exists ex,
        fst run = Throw ex /\ resp (snd run) = resp s0
        /\ (v <> part_000_first ->
            exists h k sg, createVerify_RSA_SHA256 C h k sg = Throw ex)).

(** How a call of the verifier can end. *)
Definition verifier_end (C : crypto) (options : options) (w : world)
    (request : request) (v : revision) (run : outcome bool * state) (s0 : state)
  : Prop :=
  fst run = Ret true
  \/ (exists e code,
        In e error_kinds
        /\ rejects run s0 code e
        /\ (code = internal_server_error <-> e = e_missing_key)
        /\ (code = bad_request <-> e <> e_missing_key)
        /\ (e = e_expired ->
            num_gt (time_delta options w request) (Num (grace_period options)) = true))
  \/ (exists ex,
        fst run = Throw ex /\ resp (snd run) = resp s0
        /\ (v <> part_000_first ->
            exists h k sg, createVerify_RSA_SHA256 C h k sg = Throw ex)).

(** The fetch fails: the promise rejects, the status is not a success, or
    reading the body throws. *)
Definition fetch_fails (w : world) : bool :=
  match fetch_reply w with
  | FetchRejects _ => true
  | FetchResponds ok _ text =>
      negb ok || match text with Throw _ => true | Ret _ => false end
  end.

(** The condition under which [get_public_key] goes to the endpoint. *)
Definition must_fetch (o : options) (w : world) (s : state) : bool :=
  negb (truthy (fetched_public_key s))
  || (now_get_public_key w - last_public_key_update s >? grace_period o).

(** The state with a call log extended and the cache replaced. *)
Definition with_cache (s : state) (k : option string) (t : Z) (added : list call)
  : state := {|
  fetched_public_key := k;
  last_public_key_update := t;
  resp := resp s;
  calls := (calls s ++ added)%list
|}.

(** Successive calls of the key provider, each in its own world. *)
Fixpoint get_public_key_calls (o : options) (ws : list world) (s : state)
  : list (outcome (option string)) * state :=
  match ws with
  | [] => ([], s)
  | w :: ws' =>
      let '(r, s1) := get_public_key o w s in
      let '(rs, s2) := get_public_key_calls o ws' s1 in
      (r :: rs, s2)
  end.

Definition is_fetch (c : call) : bool :=
  match c with CallFetch _ => true | _ => false end.

(* ------------------------------------------------------------------ *)
(** ** Concrete data for the worked runs *)

(** A stand-in for the [crypto] module: the digest of [s] is [s] between
    brackets, a signature of [h] is [h] behind [signed:], and [verify]
    throws on a key that is not PEM text, as Node does. *)
Definition sample_crypto : crypto := {|
  createHash_SHA256_base64 := fun s => "[" ++ s ++ "]";
  createVerify_RSA_SHA256 := fun h key sg =>
    if String.prefix "-----BEGIN" key
    then Ret (String.eqb sg ("signed:" ++ h))
    else Throw (Error "PEM routines:get_name:no start line")
|}.

(** A stand-in whose [verify] never throws. *)
Definition lenient_crypto : crypto := {|
  createHash_SHA256_base64 := fun s => "[" ++ s ++ "]";
  createVerify_RSA_SHA256 := fun h key sg => Ret (String.eqb sg ("signed:" ++ h))
|}.

Definition fresh_response : response :=
  {| statusCode := 200; res_headers := []; ended := [] |}.

Definition pem_key : string := "-----BEGIN PUBLIC KEY-----".

(** Options with a static key, and with a key endpoint only. *)
Definition static_options : options := {|
  headers := default_headers;
  headers_to_verify := [];
  public_key_endpoint := None;
  public_key := Some pem_key;
  grace_period := 300000;
  skip_verification := false
|}.

Definition endpoint_options : options := {|
  headers := default_headers;
  headers_to_verify := [];
  public_key_endpoint := Some "https://your.gateway.com/public.pem";
  public_key := None;
  grace_period := 300000;
  skip_verification := false
|}.

(** A world with no environment variable set, the clock at [now] and the
    key endpoint answering [reply]. *)
Definition world_at (now : Z) (reply : fetch_outcome) : world := {|
  SKIP_GATEWAY_VERIFICATION := None;
  API_GATEWAY_MIDDLEWARE_DEBUG := None;
  now_get_public_key := now;
  fetch_reply := reply;
  now_middleware := now
|}.

Definition refused : fetch_outcome := FetchRejects (Error "connect ECONNREFUSED").

(** [GET /orders] signed at time 1000, for the whitelist revisions under
    the default (empty) whitelist. *)
Definition orders_hash : string := "[GET:::/orders:::{}]".

Definition signed_orders : request := {|
  method := "GET";
  url := "/orders";
  req_headers :=
    [("x-micro-api-gateway-signature-time", HStr "1000");
     ("x-micro-api-gateway-request-hash", HStr orders_hash);
     ("x-micro-api-gateway-signature", HStr ("signed:" ++ orders_hash))]
|}.

(** The same request with the hash header removed. *)
Definition orders_without_hash : request := {|
  method := "GET";
  url := "/orders";
  req_headers :=
    [("x-micro-api-gateway-signature-time", HStr "1000");
     ("x-micro-api-gateway-signature", HStr ("signed:" ++ orders_hash))]
|}.

(** The same request with the time header removed. *)
Definition orders_without_time : request := {|
  method := "GET";
  url := "/orders";
  req_headers :=
    [("x-micro-api-gateway-request-hash", HStr orders_hash);
     ("x-micro-api-gateway-signature", HStr ("signed:" ++ orders_hash))]
|}.

(** Two orders of the same three headers. *)
Definition headers_one_order : jsobj hval :=
  [("x-b", HStr "2"); ("accept", HArr ["a"; "b"]); ("x-a", HStr "1")].

Definition headers_other_order : jsobj hval :=
  [("x-a", HStr "1"); ("x-b", HStr "2"); ("accept", HArr ["a"; "b"])].

(** The caller's options of the README example with only a static key. *)
Definition only_static_key : user_options := {|
  u_headers := None;
  u_headers_to_verify := None;
  u_public_key_endpoint := None;
  u_public_key := Some pem_key;
  u_grace_period := None;
  u_skip_verification := None
|}.

(** Options whose static key is not PEM text. *)
Definition unusable_key_options : options := {|
  headers := default_headers;
  headers_to_verify := [];
  public_key_endpoint := None;
  public_key := Some "c2hhcmVkLXNlY3JldA==";
  grace_period := 300000;
  skip_verification := false
|}.

(** The closure as the factory leaves it, with a fresh response. *)
Definition fresh_state : state := initial_state fresh_response.

(** The closure of the first file of [src/unnamed/part_000] after a fetch
    at time 1000 has answered with the key. *)
Definition state_after_fetch : state :=
  snd (get_public_key_0 endpoint_options
         (world_at 1000 (FetchResponds true 200 (Ret pem_key))) fresh_state).

(** Options of [src/unnamed/part_001] with the bypass switched on. *)
Definition skipping_options : options := {|
  headers := default_headers;
  headers_to_verify := [];
  public_key_endpoint := None;
  public_key := Some pem_key;
  grace_period := 300000;
  skip_verification := true
|}.

(** Two requests that differ in the order of their headers only. *)
Definition pay_one_order : request :=
  {| method := "POST"; url := "/pay"; req_headers := headers_one_order |}.

Definition pay_other_order : request :=
  {| method := "POST"; url := "/pay"; req_headers := headers_other_order |}.

(* ------------------------------------------------------------------ *)
(** ** The factory *)

Definition warning_env : string :=
  "!!! API GATEWAY VERIFICATION WILL BE SKIPPED (SKIP_GATEWAY_VERIFICATION SET IN ENV) !!!".

Definition warning_option : string :=
  "!!! API GATEWAY VERIFICATION WILL BE SKIPPED !!!".

Definition no_key_source : error :=
  Error "You must specify a public key or public key endpoint!".

(** [if ( !( options.public_key_endpoint || options.public_key ) ) throw]:
    the check every revision makes on the merged options. *)
Definition require_key_source (o : options) : outcome options :=
  if negb (truthy (public_key_endpoint o) || truthy (public_key o))
  then Throw no_key_source
  else Ret o.

(** [module.exports = function( _options )] up to the point where the
    verifier is returned: the outcome (the merged options the closure
    keeps, or the error thrown) and the warnings printed on the way.
    [src/index.js] (lines 8-28) warns first, on the environment variable;
    [src/unnamed/part_001] (lines 8-29) warns after the merge, on the
    option; the two files of [src/unnamed/part_000] print nothing. *)
Definition factory (v : revision) (w : world) (_options : user_options)
  : outcome options * list call :=
  match v with
  | index_js =>
      let warned :=
        if truthy (SKIP_GATEWAY_VERIFICATION w) then [CallWarn warning_env] else [] in
      let options := Object_assign default_options _options in
      (require_key_source options, warned)
  | part_001 =>
      let options := Object_assign default_options _options in
      let warned :=
        if skip_verification options then [CallWarn warning_option] else [] in
      (require_key_source options, warned)
  | _ =>
      let options := Object_assign default_options _options in
      (require_key_source options, [])
  end.

(* ------------------------------------------------------------------ *)
(** ** More vocabulary *)

Definition is_verify (c : call) : bool :=
  match c with CallCreateVerify _ _ _ => true | _ => false end.

Definition is_log (c : call) : bool :=
  match c with CallLog _ => true | _ => false end.

(** Calls the gates make: the serialiser, the digest, the signature check
    and the debug lines; never the key provider or the network. *)
Definition is_gate_call (c : call) : bool :=
  match c with
  | CallStableStringify _ | CallCreateHash _ | CallCreateVerify _ _ _ | CallLog _ => true
  | _ => false
  end.

(** Successive calls of the verifier on one closure, each request in its
    own world; the response object of a call is the caller's business, the
    closure variables and the call log carry over. *)
Fixpoint verifier_runs (v : revision) (C : crypto) (o : options)
    (rs : list (world * request)) (s : state) : list (outcome bool) * state :=
  match rs with
  | [] => ([], s)
  | (w, rq) :: rs' =>
      let '(r, s1) := verifier v C o w rq s in
      let '(out, s2) := verifier_runs v C o rs' s1 in
      (r :: out, s2)
  end.

(** The world with [API_GATEWAY_MIDDLEWARE_DEBUG] unset. *)
Definition without_debug (w : world) : world := {|
  SKIP_GATEWAY_VERIFICATION := SKIP_GATEWAY_VERIFICATION w;
  API_GATEWAY_MIDDLEWARE_DEBUG := None;
  now_get_public_key := now_get_public_key w;
  fetch_reply := fetch_reply w;
  now_middleware := now_middleware w
|}.

(** The names the all-headers-except selection deletes. *)
Definition excepted (options : options) : list string :=
  [hash (headers options); signature (headers options);
   "connection"; "transfer-encoding"].

(** Membership of a name in a list of names. *)
Definition mem (k : string) (l : list string) : bool :=
  existsb (String.eqb k) l.

(** The caller's options with only an endpoint. *)
Definition only_endpoint : user_options := {|
  u_headers := None;
  u_headers_to_verify := None;
  u_public_key_endpoint := Some "https://your.gateway.com/public.pem";
  u_public_key := None;
  u_grace_period := None;
  u_skip_verification := None
|}.

(** Options with a whitelist of two names and a static key. *)
Definition whitelist_options : options := {|
  headers := default_headers;
  headers_to_verify := ["x-my-special-header"; "x-some-other-header"];
  public_key_endpoint := None;
  public_key := Some pem_key;
  grace_period := 300000;
  skip_verification := false
|}.

(** [GET /orders] with a hash header and no signature header. *)
Definition orders_without_signature : request := {|
  method := "GET";
  url := "/orders";
  req_headers :=
    [("x-micro-api-gateway-signature-time", HStr "1000");
     ("x-micro-api-gateway-request-hash", HStr orders_hash)]
|}.

(** [GET /orders] with a hash header that is not the digest. *)
Definition orders_wrong_hash : request := {|
  method := "GET";
  url := "/orders";
  req_headers :=
    [("x-micro-api-gateway-signature-time", HStr "1000");
     ("x-micro-api-gateway-request-hash", HStr "[GET:::/refunds:::{}]");
     ("x-micro-api-gateway-signature", HStr ("signed:" ++ orders_hash))]
|}.

(** [GET /orders] with the right hash and a signature that is not one. *)
Definition orders_wrong_signature : request := {|
  method := "GET";
  url := "/orders";
  req_headers :=
    [("x-micro-api-gateway-signature-time", HStr "1000");
     ("x-micro-api-gateway-request-hash", HStr orders_hash);
     ("x-micro-api-gateway-signature", HStr "forged")]
|}.

(* ------------------------------------------------------------------ *)
(** ** The built-ins on small inputs *)

Example parseInt_decimal : parseInt (Some (HStr "1700000000000")) = Num 1700000000000.
Proof. reflexivity. Qed.

Example parseInt_prefix : parseInt (Some (HStr " -12abc")) = Num (-12).
Proof. reflexivity. Qed.

Example parseInt_hex : parseInt (Some (HStr "0x1F")) = Num 31.
Proof. reflexivity. Qed.

Example parseInt_undefined : parseInt None = NaN.
Proof. reflexivity. Qed.

Example parseInt_words : parseInt (Some (HStr "soon")) = NaN.
Proof. reflexivity. Qed.

Example parseInt_array : parseInt (Some (HArr ["15"; "20"])) = Num 15.
Proof. reflexivity. Qed.

Example sort_keys_three : sort_keys ["x-b"; "accept"; "x-a"] = ["accept"; "x-a"; "x-b"].
Proof. reflexivity. Qed.

Example stable_stringify_sorted :
  json_stable_stringify headers_one_order = json_stable_stringify headers_other_order.
Proof. reflexivity. Qed.

Example canonical_string_orders :
  request_as_string signed_orders (headers_to_verify_whitelist static_options signed_orders)
  = "GET:::/orders:::{}".
Proof. reflexivity. Qed.

(* ------------------------------------------------------------------ *)
(** ** Basic facts about the monad and the response writer *)

Lemma fail_run ct code e m s :
  fail ct code e m s =
  (Ret false,
   {| fetched_public_key := fetched_public_key s;
      last_public_key_update := last_public_key_update s;
      resp := failed_response ct code e m (resp s);
      calls := calls s |}).
Proof. reflexivity. Qed.

Lemma fail_rejects ct code e m s s0 :
  resp s = resp s0 -> rejects (fail ct code e m s) s0 code e.
Proof.
  intros H. exists ct, m. rewrite fail_run. simpl. rewrite H. split; reflexivity.
Qed.

(** The guarded key provider never throws and never touches the response. *)
Lemma get_public_key_returns options w s :
  exists k s1, get_public_key options w s = (Ret k, s1) /\ resp s1 = resp s.
Proof.
  unfold get_public_key, bind, record, try_catch, fetch, get, ret, lift,
    set_fetched_public_key, set_last_public_key_update, console_warn, throw.
  simpl.
  destruct (truthy (public_key options)); [eauto|].
  destruct (_ || _); [|eauto].
  destruct (fetch_reply w) as [ex|ok status [t|ex]]; simpl.
  - eauto.
  - destruct ok; simpl.
    + destruct t; simpl; eauto.
    + eauto.
  - destruct ok; simpl; eauto.
Qed.

(** The unguarded key provider leaves the response alone as well. *)
Lemma get_public_key_0_resp options w s :
  resp (snd (get_public_key_0 options w s)) = resp s.
Proof.
  unfold get_public_key_0, bind, record, fetch, get, ret, lift,
    set_fetched_public_key, set_last_public_key_update, throw.
  simpl.
  destruct (truthy (public_key options)); [reflexivity|].
  destruct (_ || _); [|reflexivity].
  destruct (fetch_reply w) as [ex|ok status [t|ex]]; simpl;
    try destruct ok; try destruct t; reflexivity.
Qed.

(* ------------------------------------------------------------------ *)
(** ** The gates, one by one *)

Section Gates.

Variable C : crypto.
Variable select : options -> request -> jsobj hval.
Variable debug : bool.
Variable options : options.
Variable w : world.
Variable request : request.
Variable public_key : option string.


Ltac run_gates :=
  unfold verify_request, canonicalize, request_hash_of, debug_log, console_log,
    verify_signature, bind, record, ret, lift, throw; simpl.

Lemma gate_hash_header s :
  is_string (hash_header options request) = None ->
  verify_request C select debug options w request public_key s
  = fail "content-type" bad_request e_missing_hash m_missing_hash s.
Proof.
  unfold hash_header. intros H. unfold verify_request. rewrite H. reflexivity.
Qed.

Lemma gate_signature_header s h :
  is_string (hash_header options request) = Some h ->
  is_string (signature_header options request) = None ->
  verify_request C select debug options w request public_key s
  = fail "content-type" bad_request e_missing_signature m_missing_signature s.
Proof.
  unfold hash_header, signature_header. intros H1 H2.
  unfold verify_request. rewrite H1, H2. reflexivity.
Qed.

Lemma gate_freshness s s0 h sg :
  resp s = resp s0 ->
  is_string (hash_header options request) = Some h ->
  is_string (signature_header options request) = Some sg ->
  num_gt (time_delta options w request) (Num (grace_period options)) = true ->
  rejects (verify_request C select debug options w request public_key s)
          s0 bad_request e_expired.
Proof.
  unfold hash_header, signature_header. intros Hr H1 H2 Hd.
  exists "content-type", m_expired.
  run_gates. rewrite H1, H2. simpl.
  destruct debug; [destruct (truthy (API_GATEWAY_MIDDLEWARE_DEBUG w))|];
    simpl; rewrite Hd; simpl; rewrite Hr; split; reflexivity.
Qed.

Lemma gate_hash_match s s0 h sg :
  resp s = resp s0 ->
  is_string (hash_header options request) = Some h ->
  is_string (signature_header options request) = Some sg ->
  num_gt (time_delta options w request) (Num (grace_period options)) = false ->
  String.eqb (request_hash C select options request) h = false ->
  rejects (verify_request C select debug options w request public_key s)
          s0 bad_request e_invalid_hash.
Proof.
  unfold hash_header, signature_header, request_hash. intros Hr H1 H2 Hd Hh.
  exists "content-type", m_invalid_hash.
  run_gates. rewrite H1, H2. simpl.
  destruct debug; [destruct (truthy (API_GATEWAY_MIDDLEWARE_DEBUG w))|];
    simpl; rewrite Hd, Hh; simpl; rewrite Hr; split; reflexivity.
Qed.

(** Past the hash comparison the verdict is the signature library's. *)
Lemma gate_signature s s0 h sg :
  resp s = resp s0 ->
  is_string (hash_header options request) = Some h ->
  is_string (signature_header options request) = Some sg ->
  num_gt (time_delta options w request) (Num (grace_period options)) = false ->
  String.eqb (request_hash C select options request) h = true ->
  let run := verify_request C select debug options w request public_key s in
  match createVerify_RSA_SHA256 C (request_hash C select options request) (or_default public_key "") sg with
  | Ret true => accepts run s0
  | Ret false => rejects run s0 bad_request e_invalid_signature
  | Throw ex => fst run = Throw ex /\ resp (snd run) = resp s0
  end
  /\ In (CallCreateVerify (request_hash C select options request) (or_default public_key "") (Some (HStr sg)))
        (calls (snd run)).
Proof.
  unfold hash_header, signature_header, request_hash. intros Hr H1 H2 Hd Hh.
  assert (Hsg : obj_get (req_headers request) (signature (headers options))
                = Some (HStr sg)).
  { destruct (obj_get (req_headers request) (signature (headers options)))
      as [[x|x]|]; simpl in H2; congruence. }
  run_gates. rewrite H1, H2. simpl.
  destruct debug; [destruct (truthy (API_GATEWAY_MIDDLEWARE_DEBUG w))|];
    simpl; rewrite Hd, Hh, Hsg; simpl;
    (destruct (createVerify_RSA_SHA256 C _ _ sg) as [[|]|ex]; simpl;
     (split;
      [ first [ split; [reflexivity|exact Hr]
              | exists "content-type", m_invalid_signature; simpl; rewrite Hr;
                split; reflexivity ]
      | apply in_or_app; right; left; reflexivity ])).
Qed.

End Gates.

(** The same gates in the first file of [src/unnamed/part_000]. *)
Section Gates_0.

Variable C : crypto.
Variable options : options.
Variable w : world.
Variable request : request.
Variable public_key : option string.

Ltac run_gates_0 :=
  unfold verify_request_0, canonicalize, request_hash_of,
    verify_signature, bind, record, ret, lift, throw; simpl.

Lemma gate_0_freshness s s0 :
  resp s = resp s0 ->
  num_gt (time_delta options w request) (Num (grace_period options)) = true ->
  rejects (verify_request_0 C options w request public_key s)
          s0 bad_request e_expired.
Proof.
  intros Hr Hd. exists "Content-Type", m_expired.
  run_gates_0. rewrite Hd. simpl. rewrite Hr. split; reflexivity.
Qed.

Lemma gate_0_hash_match s s0 :
  resp s = resp s0 ->
  num_gt (time_delta options w request) (Num (grace_period options)) = false ->
  strict_neq (request_hash C headers_to_verify_all_except options request)
             (hash_header options request) = true ->
  rejects (verify_request_0 C options w request public_key s)
          s0 bad_request e_invalid_hash.
Proof.
  unfold request_hash, hash_header. intros Hr Hd Hh.
  exists "Content-Type", m_invalid_hash.
  run_gates_0. rewrite Hd, Hh. simpl. rewrite Hr. split; reflexivity.
Qed.

Lemma gate_0_signature s s0 sg :
  resp s = resp s0 ->
  num_gt (time_delta options w request) (Num (grace_period options)) = false ->
  strict_neq (request_hash C headers_to_verify_all_except options request)
             (hash_header options request) = false ->
  signature_header options request = Some (HStr sg) ->
  let run := verify_request_0 C options w request public_key s in
  match createVerify_RSA_SHA256 C
          (request_hash C headers_to_verify_all_except options request)
          (or_default public_key "") sg with
  | Ret true => accepts run s0
  | Ret false => rejects run s0 bad_request e_invalid_signature
  | Throw ex => fst run = Throw ex /\ resp (snd run) = resp s0
  end
  /\ In (CallCreateVerify
           (request_hash C headers_to_verify_all_except options request)
           (or_default public_key "") (Some (HStr sg)))
        (calls (snd run)).
Proof.
  unfold request_hash, hash_header, signature_header. intros Hr Hd Hh Hsg.
  run_gates_0. rewrite Hd, Hh, Hsg. simpl.
  destruct (createVerify_RSA_SHA256 C _ _ sg) as [[|]|ex]; simpl;
    (split;
     [ first [ split; [reflexivity|exact Hr]
             | exists "Content-Type", m_invalid_signature; simpl; rewrite Hr;
               split; reflexivity ]
     | apply in_or_app; right; left; reflexivity ]).
Qed.

(** With no string in the signature header the library call itself throws. *)
Lemma gate_0_signature_not_string s s0 :
  resp s = resp s0 ->
  num_gt (time_delta options w request) (Num (grace_period options)) = false ->
  strict_neq (request_hash C headers_to_verify_all_except options request)
             (hash_header options request) = false ->
  is_string (signature_header options request) = None ->
  let run := verify_request_0 C options w request public_key s in
  (exists ex, fst run = Throw ex) /\ resp (snd run) = resp s0.
Proof.
  unfold request_hash, hash_header, signature_header. intros Hr Hd Hh Hsg.
  run_gates_0. rewrite Hd, Hh. simpl.
  destruct (obj_get (req_headers request) (signature (headers options)))
    as [[x|x]|]; simpl in *; try discriminate; split; eauto.
Qed.

End Gates_0.

(* ------------------------------------------------------------------ *)
(** ** The four revisions at once *)

Section Revisions.

Variable v : revision.
Variable C : crypto.
Variable options : options.
Variable w : world.
Variable request : request.

Lemma key_provider_resp s :
  resp (snd (key_provider v options w s)) = resp s.
Proof.
  destruct v; simpl; try apply get_public_key_0_resp;
    destruct (get_public_key_returns options w s) as (k & s1 & E & R);
    rewrite E; exact R.
Qed.

(** With the bypass off every revision asks for the key first, answers 500
    when there is none and runs its gates otherwise. *)
Lemma verifier_unfold s :
  bypassed v options w = false ->
  verifier v C options w request s =
  bind (key_provider v options w)
       (fun public_key =>
          if negb (truthy public_key)
          then fail (content_type v) internal_server_error e_missing_key m_missing_key
          else gates v C options w request public_key) s.
Proof.
  destruct v; simpl; intros H; try reflexivity;
    unfold middleware, middleware_1; rewrite H; reflexivity.
Qed.

Lemma verifier_missing_key s k :
  bypassed v options w = false ->
  fst (key_provider v options w s) = Ret k ->
  truthy k = false ->
  rejects (verifier v C options w request s) s internal_server_error e_missing_key.
Proof.
  intros Hb Hk Ht. rewrite verifier_unfold by exact Hb.
  pose proof (key_provider_resp s) as Hr.
  unfold bind. destruct (key_provider v options w s) as [r s1].
  simpl in Hk, Hr. subst r. rewrite Ht. simpl.
  apply fail_rejects. exact Hr.
Qed.

Lemma verifier_reaches_gates s k :
  bypassed v options w = false ->
  provides (key_provider v options w s) k ->
  verifier v C options w request s =
  gates v C options w request (Some k) (snd (key_provider v options w s)).
Proof.
  intros Hb [Hk Ht]. rewrite verifier_unfold by exact Hb.
  unfold bind. destruct (key_provider v options w s) as [r s1].
  simpl in Hk. subst r. rewrite Ht. reflexivity.
Qed.

Lemma strict_neq_string h hv h' :
  is_string hv = Some h' -> strict_neq h hv = negb (String.eqb h h').
Proof.
  destruct hv as [[x|x]|]; simpl; intros E; try discriminate.
  injection E as ->. reflexivity.
Qed.

Lemma is_string_inv hv h : is_string hv = Some h -> hv = Some (HStr h).
Proof.
  destruct hv as [[x|x]|]; simpl; intros E; try discriminate.
  injection E as ->. reflexivity.
Qed.

Lemma gates_freshness s s0 k h sg :
  resp s = resp s0 ->
  is_string (hash_header options request) = Some h ->
  is_string (signature_header options request) = Some sg ->
  num_gt (time_delta options w request) (Num (grace_period options)) = true ->
  rejects (gates v C options w request k s) s0 bad_request e_expired.
Proof.
  intros Hr H1 H2 Hd.
  destruct v; simpl;
    first [ eapply gate_freshness; eassumption
          | eapply gate_0_freshness; eassumption ].
Qed.

Lemma gates_hash_match s s0 k h sg :
  resp s = resp s0 ->
  is_string (hash_header options request) = Some h ->
  is_string (signature_header options request) = Some sg ->
  num_gt (time_delta options w request) (Num (grace_period options)) = false ->
  String.eqb (request_hash C (selection v) options request) h = false ->
  rejects (gates v C options w request k s) s0 bad_request e_invalid_hash.
Proof.
  intros Hr H1 H2 Hd Hh.
  destruct v; simpl in *;
    first [ eapply gate_hash_match; eassumption
          | eapply gate_0_hash_match; try eassumption;
            rewrite (strict_neq_string _ _ _ H1), Hh; reflexivity ].
Qed.

Lemma gates_signature s s0 k h sg :
  resp s = resp s0 ->
  is_string (hash_header options request) = Some h ->
  is_string (signature_header options request) = Some sg ->
  num_gt (time_delta options w request) (Num (grace_period options)) = false ->
  String.eqb (request_hash C (selection v) options request) h = true ->
  let run := gates v C options w request k s in
  match createVerify_RSA_SHA256 C (request_hash C (selection v) options request)
          (or_default k "") sg with
  | Ret true => accepts run s0
  | Ret false => rejects run s0 bad_request e_invalid_signature
  | Throw ex => fst run = Throw ex /\ resp (snd run) = resp s0
  end
  /\ In (CallCreateVerify (request_hash C (selection v) options request)
           (or_default k "") (Some (HStr sg)))
        (calls (snd run)).
Proof.
  intros Hr H1 H2 Hd Hh.
  destruct v; simpl in *;
    first [ eapply gate_signature; eassumption
          | eapply gate_0_signature; try eassumption;
            [ rewrite (strict_neq_string _ _ _ H1), Hh; reflexivity
            | apply is_string_inv; exact H2 ] ].
Qed.

End Revisions.

(* ------------------------------------------------------------------ *)
(** ** Every way a call can end *)

Ltac other_kind := let H := fresh in intros H; vm_compute in H; discriminate H.

Section Cases.

Variable C : crypto.
Variable options : options.
Variable w : world.
Variable request : request.

Lemma verify_request_cases v select debug k s s0 :
  v <> part_000_first ->
  resp s = resp s0 ->
  gates_end C options w request v
    (verify_request C select debug options w request k s) s0.
Proof.
  intros Hv Hr. unfold gates_end.
  destruct (is_string (hash_header options request)) as [h|] eqn:H1.
  2:{ right; left. exists e_missing_hash. rewrite gate_hash_header by exact H1.
      split; [simpl; auto|]. split; [apply fail_rejects; exact Hr|other_kind]. }
  destruct (is_string (signature_header options request)) as [sg|] eqn:H2.
  2:{ right; left. exists e_missing_signature.
      rewrite (gate_signature_header _ _ _ _ _ _ _ _ h) by assumption.
      split; [simpl; auto|]. split; [apply fail_rejects; exact Hr|other_kind]. }
  destruct (num_gt (time_delta options w request) (Num (grace_period options))) eqn:Hd.
  { right; left. exists e_expired. split; [simpl; auto|].
    split; [eapply gate_freshness; eassumption|reflexivity]. }
  destruct (String.eqb (request_hash C select options request) h) eqn:Hh.
  2:{ right; left. exists e_invalid_hash. split; [simpl; auto 6|].
      split; [eapply gate_hash_match; eassumption|other_kind]. }
  destruct (gate_signature C select debug options w request k s s0 h sg Hr H1 H2 Hd Hh)
    as [Hv' _].
  destruct (createVerify_RSA_SHA256 C _ _ sg) as [[|]|ex] eqn:Hc.
  - left. exact Hv'.
  - right; left. exists e_invalid_signature. split; [simpl; auto 6|].
    split; [exact Hv'|other_kind].
  - right; right. exists ex. destruct Hv' as [Ha Hb].
    split; [exact Ha|]. split; [exact Hb|]. intros _. eauto.
Qed.

Lemma verify_request_0_cases k s s0 :
  resp s = resp s0 ->
  gates_end C options w request part_000_first
    (verify_request_0 C options w request k s) s0.
Proof.
  intros Hr. unfold gates_end.
  destruct (num_gt (time_delta options w request) (Num (grace_period options))) eqn:Hd.
  { right; left. exists e_expired. split; [simpl; auto|].
    split; [eapply gate_0_freshness; eassumption|reflexivity]. }
  destruct (strict_neq (request_hash C headers_to_verify_all_except options request)
              (hash_header options request)) eqn:Hh.
  { right; left. exists e_invalid_hash. split; [simpl; auto 6|].
    split; [eapply gate_0_hash_match; eassumption|other_kind]. }
  destruct (is_string (signature_header options request)) as [sg|] eqn:H2.
  2:{ right; right.
      destruct (gate_0_signature_not_string C options w request k s s0 Hr Hd Hh H2)
        as [[ex He] Hb].
      exists ex. split; [exact He|]. split; [exact Hb|]. intros F. congruence. }
  apply is_string_inv in H2.
  destruct (gate_0_signature C options w request k s s0 sg Hr Hd Hh H2) as [Hv' _].
  destruct (createVerify_RSA_SHA256 C _ _ sg) as [[|]|ex] eqn:Hc.
  - left. exact Hv'.
  - right; left. exists e_invalid_signature. split; [simpl; auto 6|].
    split; [exact Hv'|other_kind].
  - right; right. exists ex. destruct Hv' as [Ha Hb].
    split; [exact Ha|]. split; [exact Hb|]. intros F. congruence.
Qed.

Lemma gates_cases v k s s0 :
  resp s = resp s0 ->
  gates_end C options w request v (gates v C options w request k s) s0.
Proof.
  intros Hr. destruct v; simpl;
    first [ apply verify_request_0_cases; exact Hr
          | apply verify_request_cases; [discriminate|exact Hr] ].
Qed.

End Cases.

(* ------------------------------------------------------------------ *)
(** ** Bypass *)

(** C5. When the bypass is on (the environment variable of [src/index.js],
    the [skip_verification] option of [src/unnamed/part_001]) the verifier
    returns [true] at once: no call reaches the key provider, the
    canonicaliser or the signature verifier, the cache is as it was, and no
    failure response is written (status and body are untouched; in
    [src/index.js] the whole state is). *)
Theorem bypass_returns_true_at_once (v : revision) (C : crypto) (o : options)
    (w : world) (rq : request) (s : state) :
  bypassed v o w = true ->
  let run := verifier v C o w rq s in
  fst run = Ret true
  /\ calls (snd run) = calls s
  /\ fetched_public_key (snd run) = fetched_public_key s
  /\ last_public_key_update (snd run) = last_public_key_update s
  /\ statusCode (resp (snd run)) = statusCode (resp s)
  /\ ended (resp (snd run)) = ended (resp s)
  /\ (v = index_js -> snd run = s).
Proof.
  destruct v; simpl; intros H; try discriminate H.
  - unfold middleware. rewrite H. simpl. repeat split; reflexivity.
  - unfold middleware_1. rewrite H. simpl. repeat split; try reflexivity.
    intros F; discriminate F.
Qed.

Lemma bypass_end v C o w rq s :
  bypassed v o w = true -> fst (verifier v C o w rq s) = Ret true.
Proof.
  destruct v; simpl; intros H; try discriminate H.
  - unfold middleware. rewrite H. reflexivity.
  - unfold middleware_1. rewrite H. reflexivity.
Qed.

Lemma bypass_returns_true_at_once_witness :
  bypassed part_001 skipping_options (world_at 5000 refused) = true
  /\ fst (verifier part_001 sample_crypto skipping_options (world_at 5000 refused)
            orders_without_hash fresh_state) = Ret true
  /\ calls (snd (verifier part_001 sample_crypto skipping_options
                   (world_at 5000 refused) orders_without_hash fresh_state)) = [].
Proof.
  split; [reflexivity|].
  pose proof (bypass_returns_true_at_once part_001 sample_crypto skipping_options
                (world_at 5000 refused) orders_without_hash fresh_state eq_refl)
    as (H1 & H2 & _).
  split; [exact H1|exact H2].
Defined.

(* ------------------------------------------------------------------ *)
(** ** Verdicts and failure responses *)

(** A run rejects with at most one kind and one status. *)
Lemma rejects_kind_unique run s c1 c2 e1 e2 :
  In e1 error_kinds -> In e2 error_kinds ->
  rejects run s c1 e1 -> rejects run s c2 e2 ->
  e1 = e2 /\ c1 = c2.
Proof.
  intros I1 I2 (ct1 & m1 & _ & R1) (ct2 & m2 & _ & R2).
  rewrite R1 in R2. unfold failed_response in R2.
  injection R2 as Hc _ He. apply app_inv_head in He.
  injection He as He. split; [|exact Hc].
  unfold error_kinds in I1, I2. simpl in I1, I2.
  repeat (destruct I1 as [I1|I1]; [subst e1|]); try contradiction;
    repeat (destruct I2 as [I2|I2]; [subst e2|]); try contradiction;
    first [ reflexivity
          | exfalso; unfold JSON_stringify_error, JSON_stringify_string in He;
            simpl in He; discriminate He ].
Qed.

Section Verdicts.

Variable C : crypto.
Variable options : options.
Variable w : world.
Variable request : request.

Lemma gates_end_verifier_end v run s0 :
  gates_end C options w request v run s0 ->
  verifier_end C options w request v run s0.
Proof.
  intros [[Ha _]|[(e & Hin & Hr & Hx)|Ht]].
  - left. exact Ha.
  - right; left. exists e, bad_request.
    assert (Hne : e <> e_missing_key).
    { simpl in Hin. intros ->.
      repeat (destruct Hin as [Hin|Hin]; [vm_compute in Hin; discriminate Hin|]).
      exact Hin. }
    split; [unfold error_kinds; simpl in *; tauto|].
    split; [exact Hr|]. split; [|split].
    + split; [intros F; discriminate F|intros F; contradiction].
    + split; [intros _; exact Hne|reflexivity].
    + exact Hx.
  - right; right. exact Ht.
Qed.

Lemma verifier_cases v s :
  verifier_end C options w request v (verifier v C options w request s) s.
Proof.
  destruct (bypassed v options w) eqn:Hb.
  { left. apply (bypass_end v C options w request s Hb). }
  rewrite verifier_unfold by exact Hb.
  pose proof (key_provider_resp v options w s) as Hr.
  unfold bind. destruct (key_provider v options w s) as [[k|ex] s1] eqn:Hk;
    simpl in Hr.
  - destruct (truthy k) eqn:Ht; simpl.
    + apply gates_end_verifier_end. apply gates_cases. exact Hr.
    + right; left. exists e_missing_key, internal_server_error.
      split; [unfold error_kinds; simpl; auto|].
      split; [apply fail_rejects; exact Hr|].
      split; [tauto|]. split; [|other_kind].
      split; [intros F; discriminate F|intros F; congruence].
  - right; right. exists ex. simpl. split; [reflexivity|].
    split; [exact Hr|]. intros Hv. exfalso.
    destruct v; try congruence; simpl in Hk;
      destruct (get_public_key_returns options w s) as (k & s2 & E & _);
      rewrite E in Hk; discriminate Hk.
Qed.

(** While the delta does not exceed the grace period no call ends in an
    [expired request] rejection. *)
Lemma not_expired v s code :
  num_gt (time_delta options w request) (Num (grace_period options)) = false ->
  ~ rejects (verifier v C options w request s) s code e_expired.
Proof.
  intros Hd Hrej.
  destruct (verifier_cases v s) as [Ha|[(e & c & Hin & Hr & _ & _ & Hx)|(ex & Ht & _)]].
  - destruct Hrej as (? & ? & F & _). congruence.
  - assert (Hin' : In e_expired error_kinds) by (unfold error_kinds; simpl; auto).
    destruct (rejects_kind_unique _ _ _ _ _ _ Hin Hin' Hr Hrej) as [-> _].
    rewrite Hx in Hd by reflexivity. discriminate Hd.
  - destruct Hrej as (? & ? & F & _). congruence.
Qed.

End Verdicts.

(** C6. Whenever a call of the verifier, in any revision, returns [false],
    the response carries a JSON failure body of one of the six kinds, and
    its status code is 500 exactly when the kind is [missing public key]
    and 400 for every other kind. *)
Theorem failure_status_by_kind (v : revision) (C : crypto) (o : options)
    (w : world) (rq : request) (s : state) :
  fst (verifier v C o w rq s) = Ret false ->
  exists e code,
    In e error_kinds
    /\ rejects (verifier v C o w rq s) s code e
    /\ statusCode (resp (snd (verifier v C o w rq s))) = code
    /\ (code = 500 <-> e = e_missing_key)
    /\ (code = 400 <-> e <> e_missing_key).
Proof.
  intros Hf.
  destruct (verifier_cases C o w rq v s)
    as [Ha|[(e & c & Hin & Hr & H5 & H4 & _)|(ex & Ht & _)]]; try congruence.
  exists e, c. split; [exact Hin|]. split; [exact Hr|].
  split; [|split; assumption].
  destruct Hr as (ct & m & _ & R). rewrite R. reflexivity.
Qed.

Lemma failure_status_by_kind_witness :
  fst (verifier index_js sample_crypto static_options (world_at 2000 refused)
         orders_without_hash fresh_state) = Ret false
  /\ exists e code,
       In e error_kinds
       /\ rejects (verifier index_js sample_crypto static_options
                     (world_at 2000 refused) orders_without_hash fresh_state)
                  fresh_state code e
       /\ statusCode (resp (snd (verifier index_js sample_crypto static_options
                                   (world_at 2000 refused) orders_without_hash
                                   fresh_state))) = code
       /\ (code = 500 <-> e = e_missing_key)
       /\ (code = 400 <-> e <> e_missing_key).
Proof.
  split; [reflexivity|].
  apply (failure_status_by_kind index_js sample_crypto static_options
           (world_at 2000 refused) orders_without_hash fresh_state).
  reflexivity.
Defined.

(* ------------------------------------------------------------------ *)
(** ** Header presence *)

(** In the three revisions that have the header gates, a request with no
    string in the hash header is answered 400 with the kind
    [missing or malformed request hash] once a key is there. *)
Lemma absent_hash_header_rejected (v : revision) (C : crypto) (o : options)
    (w : world) (rq : request) (s : state) (k : string) :
  v <> part_000_first ->
  bypassed v o w = false ->
  provides (key_provider v o w s) k ->
  is_string (hash_header o rq) = None ->
  rejects (verifier v C o w rq s) s 400 e_missing_hash.
Proof.
  intros Hv Hb Hk Hh.
  rewrite (verifier_reaches_gates v C o w rq s k Hb Hk).
  pose proof (key_provider_resp v o w s) as Hr.
  destruct v; try congruence; simpl gates;
    rewrite gate_hash_header by exact Hh; apply fail_rejects; exact Hr.
Qed.

(** The first file of [src/unnamed/part_000] compares the digest with
    whatever the lookup gives: with no string in the hash header the
    comparison fails, and the answer is [expired request] or
    [invalid request hash]. *)
Lemma part_000_first_hash_header_not_string (C : crypto) (o : options)
    (w : world) (rq : request) (s : state) (k : string) :
  provides (get_public_key_0 o w s) k ->
  is_string (hash_header o rq) = None ->
  rejects (verifier part_000_first C o w rq s) s 400
    (if num_gt (time_delta o w rq) (Num (grace_period o))
     then e_expired else e_invalid_hash).
Proof.
  intros Hk Hh.
  rewrite (verifier_reaches_gates part_000_first C o w rq s k eq_refl Hk).
  pose proof (key_provider_resp part_000_first o w s) as Hr.
  simpl gates. simpl key_provider in *.
  destruct (num_gt (time_delta o w rq) (Num (grace_period o))) eqn:Hd.
  - apply gate_0_freshness; assumption.
  - apply gate_0_hash_match; try assumption.
    destruct (hash_header o rq) as [[x|x]|]; simpl in *; congruence.
Qed.

(** C2. The first file of [src/unnamed/part_000] has no header-presence
    gate: with the static key configured and the hash header absent, the
    request is answered 400 with the kind [invalid request hash], not with
    [missing or malformed request hash]. *)
Theorem part_000_first_absent_hash_header :
  hash_header static_options orders_without_hash = None
  /\ provides (key_provider part_000_first static_options (world_at 2000 refused)
                 fresh_state) pem_key
  /\ rejects (verifier part_000_first sample_crypto static_options
                (world_at 2000 refused) orders_without_hash fresh_state)
             fresh_state 400 e_invalid_hash
  /\ ~ rejects (verifier part_000_first sample_crypto static_options
                  (world_at 2000 refused) orders_without_hash fresh_state)
               fresh_state 400 e_missing_hash.
Proof.
  assert (R : rejects (verifier part_000_first sample_crypto static_options
                         (world_at 2000 refused) orders_without_hash fresh_state)
                      fresh_state 400 e_invalid_hash).
  { exists "Content-Type", m_invalid_hash. split; reflexivity. }
  split; [reflexivity|]. split; [split; reflexivity|]. split; [exact R|].
  intros R'.
  assert (I1 : In e_invalid_hash error_kinds) by (unfold error_kinds; simpl; auto 6).
  assert (I2 : In e_missing_hash error_kinds) by (unfold error_kinds; simpl; auto 6).
  destruct (rejects_kind_unique _ _ _ _ _ _ I1 I2 R R') as [E _].
  vm_compute in E. discriminate E.
Qed.

(* ------------------------------------------------------------------ *)
(** ** Freshness *)

Lemma time_delta_parsed o w rq T :
  parseInt (obj_get (req_headers rq) (time (headers o))) = Num T ->
  time_delta o w rq = Num (now_middleware w - T).
Proof. unfold time_delta. intros ->. reflexivity. Qed.

(** C3. With the bypass off, a key at hand and the hash and signature
    headers present, let [T] be the declared signing time and
    [delta = now - T]. If [delta] equals the grace period the request is
    not rejected as expired and goes on to the next gate: a digest that
    differs from the hash header is answered [invalid request hash], a
    digest that matches is handed to the signature verifier. If [delta]
    equals the grace period plus one, the request is answered 400 with the
    kind [expired request]. This holds in every revision. *)
Theorem freshness_boundary (v : revision) (C : crypto) (o : options)
    (w : world) (rq : request) (s : state) (k h sg : string) (T : Z) :
  bypassed v o w = false ->
  provides (key_provider v o w s) k ->
  is_string (hash_header o rq) = Some h ->
  is_string (signature_header o rq) = Some sg ->
  parseInt (obj_get (req_headers rq) (time (headers o))) = Num T ->
  let run := verifier v C o w rq s in
  (now_middleware w - T = grace_period o ->
     ~ rejects run s 400 e_expired
     /\ (String.eqb (request_hash C (selection v) o rq) h = false ->
         rejects run s 400 e_invalid_hash)
     /\ (String.eqb (request_hash C (selection v) o rq) h = true ->
         In (CallCreateVerify (request_hash C (selection v) o rq) k (Some (HStr sg)))
            (calls (snd run))))
  /\ (now_middleware w - T = grace_period o + 1 ->
      rejects run s 400 e_expired).
Proof.
  intros Hb Hk H1 H2 HT run.
  pose proof (key_provider_resp v o w s) as Hr.
  pose proof (time_delta_parsed o w rq T HT) as Hd.
  split.
  - intros Heq.
    assert (Hn : num_gt (time_delta o w rq) (Num (grace_period o)) = false).
    { rewrite Hd. simpl. rewrite Heq, Z.gtb_ltb. apply Z.ltb_irrefl. }
    split; [apply not_expired; exact Hn|].
    unfold run. rewrite (verifier_reaches_gates v C o w rq s k Hb Hk).
    split; intros Hh.
    + eapply gates_hash_match; eassumption.
    + apply (gates_signature v C o w rq _ s (Some k) h sg Hr H1 H2 Hn Hh).
  - intros Heq.
    assert (Hn : num_gt (time_delta o w rq) (Num (grace_period o)) = true).
    { rewrite Hd. simpl. rewrite Heq. apply Z.gtb_lt. lia. }
    unfold run. rewrite (verifier_reaches_gates v C o w rq s k Hb Hk).
    eapply gates_freshness; eassumption.
Qed.

Lemma freshness_boundary_witness :
  (~ rejects (verifier index_js sample_crypto static_options
                (world_at 301000 refused) signed_orders fresh_state)
             fresh_state 400 e_expired)
  /\ rejects (verifier index_js sample_crypto static_options
                (world_at 301001 refused) signed_orders fresh_state)
             fresh_state 400 e_expired.
Proof.
  split.
  - refine (proj1 (proj1 (freshness_boundary index_js sample_crypto static_options
             (world_at 301000 refused) signed_orders fresh_state
             pem_key orders_hash ("signed:" ++ orders_hash) 1000
             eq_refl (conj eq_refl eq_refl) eq_refl eq_refl eq_refl) _)).
    reflexivity.
  - refine (proj2 (freshness_boundary index_js sample_crypto static_options
             (world_at 301001 refused) signed_orders fresh_state
             pem_key orders_hash ("signed:" ++ orders_hash) 1000
             eq_refl (conj eq_refl eq_refl) eq_refl eq_refl eq_refl) _).
    reflexivity.
Defined.

(* ------------------------------------------------------------------ *)
(** ** Acceptance *)

(** Past the freshness gate, a matching hash header and a signature the
    library accepts lead to acceptance. *)
Lemma fresh_valid_accepted (v : revision) (C : crypto) (o : options)
    (w : world) (rq : request) (s : state) (k sg : string) :
  (v = part_001 -> skip_verification o = false) ->
  provides (key_provider v o w s) k ->
  hash_header o rq = Some (HStr (request_hash C (selection v) o rq)) ->
  signature_header o rq = Some (HStr sg) ->
  createVerify_RSA_SHA256 C (request_hash C (selection v) o rq) k sg = Ret true ->
  num_gt (time_delta o w rq) (Num (grace_period o)) = false ->
  accepts (verifier v C o w rq s) s.
Proof.
  intros Hs Hk H1 H2 Hc Hn.
  destruct (bypassed v o w) eqn:Hb.
  { destruct v; simpl in Hb; try discriminate Hb.
    - simpl. unfold middleware. rewrite Hb. split; reflexivity.
    - rewrite Hs in Hb by reflexivity. discriminate Hb. }
  pose proof (key_provider_resp v o w s) as Hr.
  rewrite (verifier_reaches_gates v C o w rq s k Hb Hk).
  assert (H1' : is_string (hash_header o rq)
                = Some (request_hash C (selection v) o rq))
    by (rewrite H1; reflexivity).
  assert (H2' : is_string (signature_header o rq) = Some sg)
    by (rewrite H2; reflexivity).
  pose proof (gates_signature v C o w rq _ s (Some k) _ sg Hr H1' H2' Hn
                (String.eqb_refl _)) as [Hv _].
  simpl or_default in Hv. rewrite Hc in Hv. exact Hv.
Qed.

(** C7. A request whose hash header equals the digest of its canonical
    string, whose signature the library accepts for that digest under the
    key at hand, and whose delta is at most the grace period, is accepted:
    the verifier returns [true] and the response object is exactly the one
    passed in. This holds in every revision (in [src/unnamed/part_001]
    with [skip_verification] off, where the gates are what answers). *)
Theorem valid_request_accepted (v : revision) (C : crypto) (o : options)
    (w : world) (rq : request) (s : state) (k sg : string) (d : Z) :
  (v = part_001 -> skip_verification o = false) ->
  provides (key_provider v o w s) k ->
  hash_header o rq = Some (HStr (request_hash C (selection v) o rq)) ->
  signature_header o rq = Some (HStr sg) ->
  createVerify_RSA_SHA256 C (request_hash C (selection v) o rq) k sg = Ret true ->
  time_delta o w rq = Num d ->
  d <= grace_period o ->
  fst (verifier v C o w rq s) = Ret true
  /\ resp (snd (verifier v C o w rq s)) = resp s.
Proof.
  intros Hs Hk H1 H2 Hc Hd Hle.
  apply (fresh_valid_accepted v C o w rq s k sg Hs Hk H1 H2 Hc).
  rewrite Hd. simpl. rewrite Z.gtb_ltb. apply Z.ltb_ge. exact Hle.
Qed.

Lemma valid_request_accepted_witness :
  fst (verifier index_js sample_crypto static_options (world_at 2000 refused)
         signed_orders fresh_state) = Ret true
  /\ resp (snd (verifier index_js sample_crypto static_options
                  (world_at 2000 refused) signed_orders fresh_state))
     = resp fresh_state.
Proof.
  refine (valid_request_accepted index_js sample_crypto static_options
            (world_at 2000 refused) signed_orders fresh_state pem_key
            ("signed:" ++ orders_hash) 1000
            _ (conj eq_refl eq_refl) eq_refl eq_refl eq_refl eq_refl _).
  - intros F. discriminate F.
  - vm_compute. intros F. discriminate F.
Defined.

(** C9. When the time header is absent, or [parseInt] finds no number in
    it, the delta is [NaN], the comparison with the grace period is
    [false], and no revision rejects the request as expired; with a
    matching hash header and a signature the library accepts, the request
    is accepted. *)
Theorem missing_time_never_expires (v : revision) (C : crypto) (o : options)
    (w : world) (rq : request) (s : state) :
  obj_get (req_headers rq) (time (headers o)) = None
  \/ parseInt (obj_get (req_headers rq) (time (headers o))) = NaN ->
  time_delta o w rq = NaN
  /\ num_gt (time_delta o w rq) (Num (grace_period o)) = false
  /\ (forall code, ~ rejects (verifier v C o w rq s) s code e_expired)
  /\ (forall k sg,
        (v = part_001 -> skip_verification o = false) ->
        provides (key_provider v o w s) k ->
        hash_header o rq = Some (HStr (request_hash C (selection v) o rq)) ->
        signature_header o rq = Some (HStr sg) ->
        createVerify_RSA_SHA256 C (request_hash C (selection v) o rq) k sg = Ret true ->
        fst (verifier v C o w rq s) = Ret true
        /\ resp (snd (verifier v C o w rq s)) = resp s).
Proof.
  intros H.
  assert (Hp : parseInt (obj_get (req_headers rq) (time (headers o))) = NaN).
  { destruct H as [H|H]; [rewrite H; reflexivity|exact H]. }
  assert (Hd : time_delta o w rq = NaN).
  { unfold time_delta. rewrite Hp. reflexivity. }
  assert (Hn : num_gt (time_delta o w rq) (Num (grace_period o)) = false).
  { rewrite Hd. reflexivity. }
  split; [exact Hd|]. split; [exact Hn|].
  split; [intros code; apply not_expired; exact Hn|].
  intros k sg Hs Hk H1 H2 Hc.
  exact (fresh_valid_accepted v C o w rq s k sg Hs Hk H1 H2 Hc Hn).
Qed.

Lemma missing_time_never_expires_witness :
  obj_get (req_headers orders_without_time) (time (headers static_options)) = None
  /\ fst (verifier index_js sample_crypto static_options (world_at 999999999 refused)
            orders_without_time fresh_state) = Ret true.
Proof.
  split; [reflexivity|].
  refine (proj1 (proj2 (proj2 (proj2
            (missing_time_never_expires index_js sample_crypto static_options
               (world_at 999999999 refused) orders_without_time fresh_state
               (or_introl eq_refl))))
            pem_key ("signed:" ++ orders_hash)
            _ (conj eq_refl eq_refl) eq_refl eq_refl eq_refl)).
  intros F. discriminate F.
Defined.

(* ------------------------------------------------------------------ *)
(** ** Canonicalisation does not see insertion order *)

Lemma string_leb_trans a : forall b c,
  String.leb a b = true -> String.leb b c = true -> String.leb a c = true.
Proof.
  unfold String.leb.
  induction a as [|x a IH]; intros [|y b] [|z c]; simpl; try congruence.
  unfold Ascii.compare.
  destruct (N.compare_spec (N_of_ascii x) (N_of_ascii y)) as [Exy|Lxy|Gxy];
    destruct (N.compare_spec (N_of_ascii y) (N_of_ascii z)) as [Eyz|Lyz|Gyz];
    destruct (N.compare_spec (N_of_ascii x) (N_of_ascii z)) as [Exz|Lxz|Gxz];
    try congruence; try lia.
  apply IH.
Qed.

Lemma insert_key_comm x y l :
  insert_key x (insert_key y l) = insert_key y (insert_key x l).
Proof.
  induction l as [|a l IH]; simpl.
  - destruct (String.leb x y) eqn:Hxy, (String.leb y x) eqn:Hyx; try reflexivity.
    + rewrite (String.leb_antisym _ _ Hxy Hyx). reflexivity.
    + destruct (String.leb_total x y); congruence.
  - destruct (String.leb x a) eqn:Hxa, (String.leb y a) eqn:Hya; simpl.
    + destruct (String.leb x y) eqn:Hxy, (String.leb y x) eqn:Hyx;
        rewrite ?Hxa, ?Hya; try reflexivity.
      * rewrite (String.leb_antisym _ _ Hxy Hyx). reflexivity.
      * destruct (String.leb_total x y); congruence.
    + rewrite Hxa.
      destruct (String.leb y x) eqn:Hyx.
      * rewrite (string_leb_trans _ _ _ Hyx Hxa) in Hya. discriminate Hya.
      * rewrite Hya. reflexivity.
    + rewrite Hya.
      destruct (String.leb x y) eqn:Hxy.
      * rewrite (string_leb_trans _ _ _ Hxy Hya) in Hxa. discriminate Hxa.
      * rewrite Hxa. reflexivity.
    + rewrite Hxa, Hya, IH. reflexivity.
Qed.

(** Sorting forgets the order the keys came in. *)
Lemma sort_keys_Permutation l l' :
  Permutation l l' -> sort_keys l = sort_keys l'.
Proof.
  induction 1 as [|x l l' _ IH|x y l|l l' l'' _ IH1 _ IH2]; simpl.
  - reflexivity.
  - rewrite IH. reflexivity.
  - apply insert_key_comm.
  - rewrite IH1. exact IH2.
Qed.

Lemma obj_get_In {V} (o : jsobj V) k v :
  obj_wf o -> In (k, v) o -> obj_get o k = Some v.
Proof.
  unfold obj_wf, obj_keys.
  induction o as [|[k' v'] o IH]; simpl; intros Hwf Hin; [contradiction|].
  inversion Hwf as [|? ? Hnot Hwf']; subst.
  destruct Hin as [E|Hin].
  - injection E as -> ->. rewrite String.eqb_refl. reflexivity.
  - destruct (String.eqb_spec k' k) as [->|Hne].
    + exfalso. apply Hnot. apply (in_map fst) in Hin. exact Hin.
    + apply IH; assumption.
Qed.

Lemma obj_get_None {V} (o : jsobj V) k :
  obj_get o k = None <-> ~ In k (obj_keys o).
Proof.
  unfold obj_keys. induction o as [|[k' v'] o IH]; simpl.
  - tauto.
  - destruct (String.eqb_spec k' k) as [->|Hne].
    + split; [discriminate|]. intros H. exfalso. apply H. left. reflexivity.
    + rewrite IH. tauto.
Qed.

Lemma obj_get_Some_In {V} (o : jsobj V) k v :
  obj_get o k = Some v -> In (k, v) o.
Proof.
  induction o as [|[k' v'] o IH]; simpl; [discriminate|].
  destruct (String.eqb_spec k' k) as [->|Hne].
  - intros E. injection E as ->. left. reflexivity.
  - intros E. right. apply IH. exact E.
Qed.

(** Two well-formed objects with the same bindings answer every lookup
    alike. *)
Lemma obj_get_Permutation {V} (o1 o2 : jsobj V) k :
  obj_wf o1 -> Permutation o1 o2 -> obj_get o1 k = obj_get o2 k.
Proof.
  intros Hwf Hp.
  assert (Hwf2 : obj_wf o2).
  { unfold obj_wf, obj_keys in *.
    eapply Permutation_NoDup; [apply Permutation_map; exact Hp|exact Hwf]. }
  destruct (obj_get o1 k) as [v|] eqn:E1.
  - symmetry. apply obj_get_In; [exact Hwf2|].
    eapply Permutation_in; [exact Hp|]. apply obj_get_Some_In. exact E1.
  - symmetry. apply obj_get_None. apply obj_get_None in E1.
    intros Hin. apply E1. unfold obj_keys in *.
    eapply Permutation_in; [apply Permutation_sym, Permutation_map; exact Hp|exact Hin].
Qed.

Lemma obj_delete_filter {V} (o : jsobj V) k :
  obj_delete o k = filter (fun kv => negb (String.eqb (fst kv) k)) o.
Proof.
  induction o as [|[k' v'] o IH]; simpl; [reflexivity|].
  destruct (String.eqb k' k); simpl; rewrite IH; reflexivity.
Qed.

Lemma filter_Permutation {A} (f : A -> bool) l l' :
  Permutation l l' -> Permutation (filter f l) (filter f l').
Proof.
  induction 1 as [|x l l' _ IH|x y l|l l' l'' _ IH1 _ IH2]; simpl.
  - constructor.
  - destruct (f x); [constructor|]; exact IH.
  - destruct (f x), (f y); try apply Permutation_refl. constructor.
  - eapply Permutation_trans; eassumption.
Qed.

Lemma obj_delete_Permutation {V} (o1 o2 : jsobj V) k :
  Permutation o1 o2 -> Permutation (obj_delete o1 k) (obj_delete o2 k).
Proof. rewrite !obj_delete_filter. apply filter_Permutation. Qed.

Lemma obj_delete_wf {V} (o : jsobj V) k : obj_wf o -> obj_wf (obj_delete o k).
Proof.
  unfold obj_wf, obj_keys.
  induction o as [|[k' v'] o IH]; simpl; intros Hwf; [constructor|].
  inversion Hwf as [|? ? Hnot Hwf']; subst.
  destruct (String.eqb k' k); [apply IH; exact Hwf'|].
  simpl. constructor; [|apply IH; exact Hwf'].
  intros Hin. apply Hnot. rewrite obj_delete_filter in Hin.
  apply in_map_iff in Hin. destruct Hin as ([k2 v2] & E & Hin).
  apply filter_In in Hin. destruct Hin as [Hin _]. simpl in E. subst k2.
  apply (in_map fst) in Hin. exact Hin.
Qed.

Lemma json_stable_stringify_Permutation (o1 o2 : jsobj hval) :
  obj_wf o1 -> Permutation o1 o2 ->
  json_stable_stringify o1 = json_stable_stringify o2.
Proof.
  intros Hwf Hp. unfold json_stable_stringify.
  rewrite (sort_keys_Permutation (obj_keys o1) (obj_keys o2))
    by (apply Permutation_map; exact Hp).
  do 3 f_equal. apply flat_map_ext. intros k.
  rewrite (obj_get_Permutation o1 o2 k Hwf Hp). reflexivity.
Qed.

Lemma headers_to_verify_whitelist_ext (o : options) (rq1 rq2 : request) :
  (forall k, obj_get (req_headers rq1) k = obj_get (req_headers rq2) k) ->
  headers_to_verify_whitelist o rq1 = headers_to_verify_whitelist o rq2.
Proof.
  intros H. unfold headers_to_verify_whitelist.
  generalize (@nil (string * hval)).
  induction (headers_to_verify o) as [|header l IH]; intros acc; simpl.
  - reflexivity.
  - rewrite H. apply IH.
Qed.

Lemma headers_to_verify_all_except_Permutation (o : options) (rq1 rq2 : request) :
  obj_wf (req_headers rq1) ->
  Permutation (req_headers rq1) (req_headers rq2) ->
  obj_wf (headers_to_verify_all_except o rq1)
  /\ Permutation (headers_to_verify_all_except o rq1)
                 (headers_to_verify_all_except o rq2).
Proof.
  intros Hwf Hp. unfold headers_to_verify_all_except. split.
  - repeat apply obj_delete_wf. exact Hwf.
  - repeat apply obj_delete_Permutation. exact Hp.
Qed.

(** C8. Two requests with the same method, the same URL and header maps
    holding the same key/value pairs in different insertion order have the
    same canonical string, byte for byte, and so the same digest; under
    the whitelist selection of [src/index.js] and under the
    all-headers-except selection of [src/unnamed/part_000] alike. The
    whitelist selection already yields the same object for both, whatever
    the serialiser does with it. *)
Theorem canonical_string_order_independent (v : revision) (C : crypto)
    (o : options) (rq1 rq2 : request) :
  method rq1 = method rq2 ->
  url rq1 = url rq2 ->
  obj_wf (req_headers rq1) ->
  Permutation (req_headers rq1) (req_headers rq2) ->
  request_as_string rq1 (selection v o rq1) = request_as_string rq2 (selection v o rq2)
  /\ request_hash C (selection v) o rq1 = request_hash C (selection v) o rq2
  /\ headers_to_verify_whitelist o rq1 = headers_to_verify_whitelist o rq2.
Proof.
  intros Hm Hu Hwf Hp.
  assert (W : headers_to_verify_whitelist o rq1 = headers_to_verify_whitelist o rq2).
  { apply headers_to_verify_whitelist_ext.
    intros k. apply obj_get_Permutation; assumption. }
  assert (J : json_stable_stringify (selection v o rq1)
              = json_stable_stringify (selection v o rq2)).
  { destruct v; simpl.
    - rewrite W. reflexivity.
    - destruct (headers_to_verify_all_except_Permutation o rq1 rq2 Hwf Hp).
      apply json_stable_stringify_Permutation; assumption.
    - destruct (headers_to_verify_all_except_Permutation o rq1 rq2 Hwf Hp).
      apply json_stable_stringify_Permutation; assumption.
    - rewrite W. reflexivity. }
  assert (E : request_as_string rq1 (selection v o rq1)
              = request_as_string rq2 (selection v o rq2)).
  { unfold request_as_string. rewrite Hm, Hu, J. reflexivity. }
  split; [exact E|]. split; [|exact W]. unfold request_hash. rewrite E. reflexivity.
Qed.

Lemma canonical_string_order_independent_witness :
  request_as_string pay_one_order
    (selection part_000_first static_options pay_one_order)
  = request_as_string pay_other_order
      (selection part_000_first static_options pay_other_order)
  /\ request_hash sample_crypto (selection part_000_first) static_options
       pay_one_order
     = request_hash sample_crypto (selection part_000_first) static_options
         pay_other_order.
Proof.
  refine ((fun H => conj (proj1 H) (proj1 (proj2 H)))
            (canonical_string_order_independent part_000_first sample_crypto
               static_options pay_one_order pay_other_order eq_refl eq_refl _ _)).
  - unfold obj_wf. simpl.
    repeat (constructor;
            [simpl; intros H; repeat (destruct H as [H|H]; [discriminate H|]); exact H|]).
    constructor.
  - unfold pay_one_order, pay_other_order, headers_one_order, headers_other_order.
    simpl.
    eapply perm_trans; [apply perm_skip; apply perm_swap|apply perm_swap].
Defined.

(** C10. In the whitelist revisions, when the caller passes no
    [headers_to_verify] the merged options hold the empty list, and the
    canonical string of every request is its method, [:::], its URL,
    [:::] and an empty pair of braces, whatever headers it carries: two
    requests with the same method and URL have the same canonical string
    and the same digest, so no change to a header changes the digest. *)
Theorem default_whitelist_covers_method_and_url (u : user_options)
    (C : crypto) (rq : request) :
  u_headers_to_verify u = None ->
  let o := Object_assign default_options u in
  headers_to_verify o = []
  /\ request_as_string rq (headers_to_verify_whitelist o rq)
     = method rq ++ ":::" ++ url rq ++ ":::" ++ "{}"
  /\ (forall rq',
        method rq' = method rq -> url rq' = url rq ->
        request_as_string rq' (headers_to_verify_whitelist o rq')
        = request_as_string rq (headers_to_verify_whitelist o rq)
        /\ request_hash C headers_to_verify_whitelist o rq'
           = request_hash C headers_to_verify_whitelist o rq).
Proof.
  intros Hu o.
  assert (Hw : forall r, headers_to_verify_whitelist o r = []).
  { intros r. unfold headers_to_verify_whitelist, o. simpl. rewrite Hu. reflexivity. }
  split; [unfold o; simpl; rewrite Hu; reflexivity|].
  split; [rewrite Hw; reflexivity|].
  intros rq' Hm Hurl.
  assert (E : request_as_string rq' (headers_to_verify_whitelist o rq')
              = request_as_string rq (headers_to_verify_whitelist o rq)).
  { rewrite !Hw. unfold request_as_string. rewrite Hm, Hurl. reflexivity. }
  split; [exact E|]. unfold request_hash. rewrite E. reflexivity.
Qed.

Lemma default_whitelist_covers_method_and_url_witness :
  request_as_string signed_orders
    (headers_to_verify_whitelist (Object_assign default_options only_static_key)
       signed_orders)
  = "GET:::/orders:::{}".
Proof.
  exact (proj1 (proj2 (default_whitelist_covers_method_and_url only_static_key
                         sample_crypto signed_orders eq_refl))).
Defined.

(* ------------------------------------------------------------------ *)
(** ** The key cache of the guarded provider *)

Ltac run_key_provider :=
  unfold get_public_key, get_public_key_0, bind, record, try_catch, fetch, get,
    ret, lift, set_fetched_public_key, set_last_public_key_update,
    console_warn, throw; cbn.

(** A cached key within the grace period is returned as it is, with no
    call to the endpoint. *)
Lemma get_public_key_cache_hit o w s :
  truthy (public_key o) = false ->
  must_fetch o w s = false ->
  get_public_key o w s
  = (Ret (fetched_public_key s),
     with_cache s (fetched_public_key s) (last_public_key_update s) [CallGetPublicKey]).
Proof.
  unfold must_fetch. intros Hk Hm. run_key_provider. rewrite Hk. cbn. rewrite Hm.
  reflexivity.
Qed.

(** A fetch that yields a key fills the cache and stamps it with the time
    read before the fetch. *)
Lemma get_public_key_fetch_success o w s status c k :
  truthy (public_key o) = false ->
  must_fetch o w s = true ->
  fetch_reply w = FetchResponds true status (Ret (String c k)) ->
  get_public_key o w s
  = (Ret (Some (String c k)),
     with_cache s (Some (String c k)) (now_get_public_key w)
       [CallGetPublicKey; CallFetch (public_key_endpoint o)]).
Proof.
  unfold must_fetch, with_cache. intros Hk Hm Hf. run_key_provider.
  rewrite Hk. cbn. rewrite Hm, Hf. cbn. rewrite <- app_assoc. reflexivity.
Qed.

(** A failed fetch empties the cache and hands over no key. *)
Lemma get_public_key_fetch_failure o w s :
  truthy (public_key o) = false ->
  must_fetch o w s = true ->
  fetch_fails w = true ->
  exists warning,
    get_public_key o w s
    = (Ret None,
       with_cache s None (last_public_key_update s)
         [CallGetPublicKey; CallFetch (public_key_endpoint o); CallWarn warning]).
Proof.
  unfold must_fetch, fetch_fails, with_cache. intros Hk Hm Hf. run_key_provider.
  rewrite Hk. cbn. rewrite Hm.
  destruct (fetch_reply w) as [ex|ok status [t|ex]]; simpl in *.
  - eexists. rewrite <- !app_assoc. reflexivity.
  - destruct ok; simpl in Hf; [discriminate Hf|]. simpl.
    eexists. rewrite <- !app_assoc. reflexivity.
  - destruct ok; simpl; eexists; rewrite <- !app_assoc; reflexivity.
Qed.

(** With an empty cache the next call goes to the endpoint, whatever the
    clock says. *)
Lemma get_public_key_empty_cache_fetches o w s :
  truthy (public_key o) = false ->
  fetched_public_key s = None ->
  exists r s1 rest,
    get_public_key o w s = (r, s1)
    /\ calls s1 = (calls s ++ CallGetPublicKey :: CallFetch (public_key_endpoint o) :: rest)%list.
Proof.
  intros Hk Hc. run_key_provider. rewrite Hk. cbn. rewrite Hc. simpl.
  destruct (fetch_reply w) as [ex|ok status [t|ex]]; simpl.
  - do 3 eexists. split; [reflexivity|]. simpl. rewrite <- !app_assoc. reflexivity.
  - destruct ok; simpl.
    + destruct t; simpl; do 3 eexists; (split; [reflexivity|]); simpl;
        rewrite <- !app_assoc; simpl; reflexivity.
    + do 3 eexists. split; [reflexivity|]. simpl. rewrite <- !app_assoc. reflexivity.
  - destruct ok; simpl; do 3 eexists; (split; [reflexivity|]); simpl;
      rewrite <- !app_assoc; simpl; reflexivity.
Qed.

(** A key past its time to live is never handed over: the key a call
    returns while the cached one is too old is the text just fetched. *)
Lemma get_public_key_never_stale o w s k :
  truthy (public_key o) = false ->
  now_get_public_key w - last_public_key_update s > grace_period o ->
  fst (get_public_key o w s) = Ret (Some k) ->
  exists status, fetch_reply w = FetchResponds true status (Ret k).
Proof.
  intros Hk Hlate. run_key_provider. rewrite Hk. cbn.
  assert (Hg : (now_get_public_key w - last_public_key_update s >? grace_period o) = true)
    by (apply Z.gtb_lt; lia).
  rewrite Hg, orb_true_r.
  destruct (fetch_reply w) as [ex|ok status [t|ex]]; simpl.
  - discriminate.
  - destruct ok; simpl.
    + destruct t; simpl; intros E; injection E as <-; eauto.
    + discriminate.
  - destruct ok; simpl; discriminate.
Qed.

(** After a fetch at time [t0] has cached the key [k], every later call
    whose clock is within the grace period of [t0] returns [k] and makes no
    call to the endpoint. *)
Lemma get_public_key_calls_reuse o k t0 ws : forall s,
  truthy (public_key o) = false ->
  fetched_public_key s = Some k ->
  truthy (Some k) = true ->
  last_public_key_update s = t0 ->
  Forall (fun w => now_get_public_key w - t0 <= grace_period o) ws ->
  let '(rs, s') := get_public_key_calls o ws s in
  Forall (fun r => r = Ret (Some k)) rs
  /\ fetched_public_key s' = Some k
  /\ last_public_key_update s' = t0
  /\ filter is_fetch (calls s') = filter is_fetch (calls s).
Proof.
  induction ws as [|w ws IH]; intros s Hk Hc Ht Hl Hws; simpl.
  - repeat split; try assumption; constructor.
  - inversion Hws as [|? ? Hw Hws']; subst.
    assert (Hm : must_fetch o w s = false).
    { unfold must_fetch. rewrite Hc, Ht. simpl.
      rewrite Z.gtb_ltb. apply Z.ltb_ge. exact Hw. }
    rewrite (get_public_key_cache_hit o w s Hk Hm).
    specialize (IH (with_cache s (fetched_public_key s) (last_public_key_update s)
                      [CallGetPublicKey]) Hk Hc Ht eq_refl Hws').
    destruct (get_public_key_calls o ws _) as [rs s'].
    destruct IH as (Hrs & Hc' & Hl' & Hf).
    split; [constructor; [rewrite Hc; reflexivity|exact Hrs]|].
    split; [exact Hc'|]. split; [exact Hl'|].
    rewrite Hf. simpl. rewrite filter_app. simpl. apply app_nil_r.
Qed.

(** In the first file of [src/unnamed/part_000] a rejected fetch leaves
    [get_public_key] as an exception, and the cache is what it was. *)
Lemma get_public_key_0_fetch_rejects o w s ex :
  truthy (public_key o) = false ->
  must_fetch o w s = true ->
  fetch_reply w = FetchRejects ex ->
  get_public_key_0 o w s
  = (Throw ex,
     with_cache s (fetched_public_key s) (last_public_key_update s)
       [CallGetPublicKey; CallFetch (public_key_endpoint o)]).
Proof.
  unfold must_fetch, with_cache. intros Hk Hm Hf. run_key_provider.
  rewrite Hk. cbn. rewrite Hm, Hf. cbn. rewrite <- app_assoc. reflexivity.
Qed.

(** C4. In the first file of [src/unnamed/part_000] the fetch is not
    guarded. After a successful fetch at time 1000 has cached a key, a call
    made once the grace period has run out, while the endpoint refuses the
    connection, ends with the exception and leaves the old key in the
    cache; the guarded provider of [src/index.js] returns no key and clears
    the cache on the same input. *)
Theorem part_000_first_failed_fetch_keeps_cache :
  fetched_public_key state_after_fetch = Some pem_key
  /\ last_public_key_update state_after_fetch = 1000
  /\ must_fetch endpoint_options (world_at 301001 refused) state_after_fetch = true
  /\ fst (get_public_key_0 endpoint_options (world_at 301001 refused)
            state_after_fetch)
     = Throw (Error "connect ECONNREFUSED")
  /\ fetched_public_key
       (snd (get_public_key_0 endpoint_options (world_at 301001 refused)
               state_after_fetch))
     = Some pem_key
  /\ fst (verifier part_000_first sample_crypto endpoint_options
            (world_at 301001 refused) signed_orders state_after_fetch)
     = Throw (Error "connect ECONNREFUSED")
  /\ fst (get_public_key endpoint_options (world_at 301001 refused)
            state_after_fetch) = Ret None
  /\ fetched_public_key
       (snd (get_public_key endpoint_options (world_at 301001 refused)
               state_after_fetch)) = None.
Proof. repeat split. Qed.

(* ------------------------------------------------------------------ *)
(** ** Exceptions *)

(** Counterexample to C1: with a configured key the signature library
    cannot read, a request that passes every earlier gate makes [verify]
    throw; the verifier of [src/index.js] ends with that exception, returns
    no verdict and writes nothing to the response. *)
Lemma signature_library_exception_escapes :
  fst (verifier index_js sample_crypto unusable_key_options
         (world_at 2000 refused) signed_orders fresh_state)
  = Throw (Error "PEM routines:get_name:no start line")
  /\ resp (snd (verifier index_js sample_crypto unusable_key_options
                  (world_at 2000 refused) signed_orders fresh_state))
     = fresh_response
  /\ ~ (exists b,
          fst (verifier index_js sample_crypto unusable_key_options
                 (world_at 2000 refused) signed_orders fresh_state) = Ret b).
Proof.
  split; [reflexivity|]. split; [reflexivity|].
  intros [b Hb]. vm_compute in Hb. discriminate Hb.
Qed.

(** The gates of the three later revisions end with an exception only
    past the header gates, the freshness gate and the hash comparison, and
    the exception is then the one [verify] throws on this call's digest,
    key and signature. *)
Lemma verify_request_throws C select debug o w rq k s ex :
  fst (verify_request C select debug o w rq k s) = Throw ex ->
  exists sg,
    hash_header o rq = Some (HStr (request_hash C select o rq))
    /\ signature_header o rq = Some (HStr sg)
    /\ num_gt (time_delta o w rq) (Num (grace_period o)) = false
    /\ createVerify_RSA_SHA256 C (request_hash C select o rq) (or_default k "") sg
       = Throw ex.
Proof.
  intros Hex.
  destruct (is_string (hash_header o rq)) as [h|] eqn:H1.
  2:{ rewrite gate_hash_header in Hex by exact H1. discriminate Hex. }
  destruct (is_string (signature_header o rq)) as [sg|] eqn:H2.
  2:{ rewrite (gate_signature_header _ _ _ _ _ _ _ _ h H1 H2) in Hex.
      discriminate Hex. }
  destruct (num_gt (time_delta o w rq) (Num (grace_period o))) eqn:Hd.
  { destruct (gate_freshness C select debug o w rq k s s h sg eq_refl H1 H2 Hd)
      as (? & ? & F & _). congruence. }
  destruct (String.eqb (request_hash C select o rq) h) eqn:Hh.
  2:{ destruct (gate_hash_match C select debug o w rq k s s h sg eq_refl H1 H2 Hd Hh)
        as (? & ? & F & _). congruence. }
  destruct (gate_signature C select debug o w rq k s s h sg eq_refl H1 H2 Hd Hh)
    as [Hg _].
  apply String.eqb_eq in Hh. subst h.
  exists sg. split; [apply is_string_inv; exact H1|].
  split; [apply is_string_inv; exact H2|]. split; [reflexivity|].
  destruct (createVerify_RSA_SHA256 C _ _ sg) as [[|]|ex'].
  - destruct Hg as [F _]. congruence.
  - destruct Hg as (? & ? & F & _). congruence.
  - destruct Hg as [F _]. congruence.
Qed.

(** C1 (amended). In the revisions that guard the key fetch
    ([src/index.js], the second file of [src/unnamed/part_000],
    [src/unnamed/part_001]): the key provider never throws, and a failed
    fetch (rejected promise, non-success status, failing body read) is
    answered 500 with the kind [missing public key]; whenever [verify]
    does not throw on this call's own digest, key and signature, the call
    returns a boolean, and a [false] comes with a JSON failure response of
    one of the six kinds. An exception of the signature library is not
    caught, and it is the only one that can leave the call: the call ends
    with the exception [ex] exactly when the bypass is off, the provider
    has handed over a key, the hash header equals the digest, the
    signature header holds a string, the delta does not exceed the grace
    period, and [verify] throws [ex] on that digest, key and signature;
    the response is then untouched. *)
Theorem verdict_unless_signature_library_throws (v : revision) (C : crypto)
    (o : options) (w : world) (rq : request) (s : state) :
  v <> part_000_first ->
  let run := verifier v C o w rq s in
  (exists k s1, key_provider v o w s = (Ret k, s1))
  /\ (bypassed v o w = false ->
      truthy (public_key o) = false ->
      must_fetch o w s = true ->
      fetch_fails w = true ->
      rejects run s 500 e_missing_key)
  /\ ((forall k sg,
         provides (key_provider v o w s) k ->
         signature_header o rq = Some (HStr sg) ->
         exists b,
           createVerify_RSA_SHA256 C (request_hash C (selection v) o rq) k sg
           = Ret b) ->
      exists b,
        fst run = Ret b
        /\ (b = false ->
            exists e code, In e error_kinds /\ rejects run s code e))
  /\ (forall ex,
        fst run = Throw ex <->
        bypassed v o w = false
        /\ exists k sg,
             provides (key_provider v o w s) k
             /\ hash_header o rq = Some (HStr (request_hash C (selection v) o rq))
             /\ signature_header o rq = Some (HStr sg)
             /\ num_gt (time_delta o w rq) (Num (grace_period o)) = false
             /\ createVerify_RSA_SHA256 C (request_hash C (selection v) o rq) k sg
                = Throw ex)
  /\ (forall ex, fst run = Throw ex -> resp (snd run) = resp s).
Proof.
  intros Hv run.
  assert (Hkp : key_provider v o w = get_public_key o w)
    by (destruct v; try congruence; reflexivity).
  assert (Hgates : gates v C o w rq
                   = verify_request C (selection v)
                       (match v with part_000_second => false | _ => true end)
                       o w rq)
    by (destruct v; try congruence; reflexivity).
  assert (Hthrow : forall ex,
             fst run = Throw ex ->
             bypassed v o w = false
             /\ exists k sg,
                  provides (key_provider v o w s) k
                  /\ hash_header o rq
                     = Some (HStr (request_hash C (selection v) o rq))
                  /\ signature_header o rq = Some (HStr sg)
                  /\ num_gt (time_delta o w rq) (Num (grace_period o)) = false
                  /\ createVerify_RSA_SHA256 C
                       (request_hash C (selection v) o rq) k sg = Throw ex).
  { intros ex Hex. unfold run in Hex.
    destruct (bypassed v o w) eqn:Hb.
    { rewrite (bypass_end v C o w rq s Hb) in Hex. discriminate Hex. }
    split; [reflexivity|].
    rewrite verifier_unfold in Hex by exact Hb. unfold bind in Hex.
    destruct (get_public_key_returns o w s) as (k & s1 & E & _).
    rewrite Hkp, E in Hex. rewrite Hkp, E.
    destruct k as [[|c k]|]; cbn [truthy negb] in Hex;
      try (rewrite fail_run in Hex; discriminate Hex).
    rewrite Hgates in Hex.
    destruct (verify_request_throws _ _ _ _ _ _ _ _ _ Hex)
      as (sg & H1 & H2 & H3 & H4).
    exists (String c k), sg.
    split; [split; reflexivity|]. repeat split; assumption. }
  split; [|split; [|split; [|split]]].
  - rewrite Hkp. destruct (get_public_key_returns o w s) as (k & s1 & E & _). eauto.
  - intros Hb Hk Hm Hf.
    destruct (get_public_key_fetch_failure o w s Hk Hm Hf) as [warning E].
    apply (verifier_missing_key v C o w rq s None Hb); [|reflexivity].
    rewrite Hkp, E. reflexivity.
  - intros Hnt.
    destruct (fst run) as [b|ex] eqn:Hrun.
    + exists b. split; [reflexivity|]. intros ->.
      destruct (verifier_cases C o w rq v s)
        as [Ha|[(e & c & Hin & Hr & _)|(ex & Ht & _)]].
      * unfold run in Hrun. congruence.
      * eauto.
      * unfold run in Hrun. congruence.
    + destruct (Hthrow ex eq_refl) as (_ & k & sg & Hp & _ & H2 & _ & Hc).
      destruct (Hnt k sg Hp H2) as [b Hb]. congruence.
  - intros ex. split; [apply Hthrow|].
    intros (Hb & k & sg & Hk & H1 & H2 & Hn & Hc).
    pose proof (key_provider_resp v o w s) as Hr.
    unfold run. rewrite (verifier_reaches_gates v C o w rq s k Hb Hk).
    assert (H1' : is_string (hash_header o rq)
                  = Some (request_hash C (selection v) o rq))
      by (rewrite H1; reflexivity).
    assert (H2' : is_string (signature_header o rq) = Some sg)
      by (rewrite H2; reflexivity).
    pose proof (gates_signature v C o w rq _ s (Some k) _ sg Hr H1' H2' Hn
                  (String.eqb_refl _)) as [Hg _].
    simpl or_default in Hg. rewrite Hc in Hg. apply Hg.
  - intros ex Hex.
    destruct (verifier_cases C o w rq v s)
      as [Ha|[(e & c & Hin & Hr & _)|(ex' & Ht & Hr & _)]].
    + unfold run in Hex. congruence.
    + destruct Hr as (? & ? & F & _). unfold run in Hex. congruence.
    + exact Hr.
Qed.

Lemma verdict_unless_signature_library_throws_witness :
  index_js <> part_000_first
  /\ exists b,
       fst (verifier index_js sample_crypto static_options
              (world_at 2000 refused) signed_orders fresh_state) = Ret b.
Proof.
  assert (Hv : index_js <> part_000_first) by discriminate.
  split; [exact Hv|].
  destruct (proj1 (proj2 (proj2
              (verdict_unless_signature_library_throws index_js sample_crypto
                 static_options (world_at 2000 refused) signed_orders
                 fresh_state Hv))))
    as [b [Hb _]].
  - intros k sg [Hk _] _. vm_compute in Hk. injection Hk as <-.
    eexists. reflexivity.
  - exists b. exact Hb.
Defined.

(* ------------------------------------------------------------------ *)
(** ** The key provider in closed form *)

(** What one call of the guarded provider does, case by case. *)
Lemma get_public_key_run o w s :
  get_public_key o w s =
  if truthy (public_key o)
  then (Ret (public_key o),
        with_cache s (fetched_public_key s) (last_public_key_update s)
          [CallGetPublicKey])
  else if must_fetch o w s
  then
    match fetch_reply w with
    | FetchRejects ex =>
        (Ret None,
         with_cache s None (last_public_key_update s)
           [CallGetPublicKey; CallFetch (public_key_endpoint o);
            CallWarn (warn_text ex)])
    | FetchResponds true status (Ret t) =>
        (Ret (Some t),
         with_cache s (Some t)
           (if truthy (Some t) then now_get_public_key w
            else last_public_key_update s)
           [CallGetPublicKey; CallFetch (public_key_endpoint o)])
    | FetchResponds true status (Throw ex) =>
        (Ret None,
         with_cache s None (last_public_key_update s)
           [CallGetPublicKey; CallFetch (public_key_endpoint o);
            CallWarn (warn_text ex)])
    | FetchResponds false status _ =>
        (Ret None,
         with_cache s None (last_public_key_update s)
           [CallGetPublicKey; CallFetch (public_key_endpoint o);
            CallWarn ("Failed to fetch api gateway public key. (HTTP response code: "
                        ++ string_of_Z status ++ ")")])
    end
  else (Ret (fetched_public_key s),
        with_cache s (fetched_public_key s) (last_public_key_update s)
          [CallGetPublicKey]).
Proof.
  unfold must_fetch, with_cache. run_key_provider.
  destruct (truthy (public_key o)); cbn; [reflexivity|].
  destruct (negb (truthy (fetched_public_key s))
            || (now_get_public_key w - last_public_key_update s >? grace_period o));
    [|reflexivity].
  destruct (fetch_reply w) as [ex|[|] status [t|ex]]; cbn;
    try destruct t; cbn; rewrite <- ?app_assoc; reflexivity.
Qed.

(** The same for the provider of the first file of [src/unnamed/part_000]. *)
Lemma get_public_key_0_run o w s :
  get_public_key_0 o w s =
  if truthy (public_key o)
  then (Ret (public_key o),
        with_cache s (fetched_public_key s) (last_public_key_update s)
          [CallGetPublicKey])
  else if must_fetch o w s
  then
    match fetch_reply w with
    | FetchRejects ex =>
        (Throw ex,
         with_cache s (fetched_public_key s) (last_public_key_update s)
           [CallGetPublicKey; CallFetch (public_key_endpoint o)])
    | FetchResponds true status (Ret t) =>
        (Ret (Some t),
         with_cache s (Some t) (now_get_public_key w)
           [CallGetPublicKey; CallFetch (public_key_endpoint o)])
    | FetchResponds true status (Throw ex) =>
        (Throw ex,
         with_cache s (fetched_public_key s) (last_public_key_update s)
           [CallGetPublicKey; CallFetch (public_key_endpoint o)])
    | FetchResponds false status _ =>
        (Ret None,
         with_cache s None (last_public_key_update s)
           [CallGetPublicKey; CallFetch (public_key_endpoint o)])
    end
  else (Ret (fetched_public_key s),
        with_cache s (fetched_public_key s) (last_public_key_update s)
          [CallGetPublicKey]).
Proof.
  unfold must_fetch, with_cache. run_key_provider.
  destruct (truthy (public_key o)); cbn; [reflexivity|].
  destruct (negb (truthy (fetched_public_key s))
            || (now_get_public_key w - last_public_key_update s >? grace_period o));
    [|reflexivity].
  destruct (fetch_reply w) as [ex|[|] status [t|ex]]; cbn;
    rewrite <- ?app_assoc; reflexivity.
Qed.

(* ------------------------------------------------------------------ *)
(** ** What the gates leave alone *)

Ltac added_calls :=
  first [ exists []; split; [rewrite app_nil_r; reflexivity|reflexivity]
        | eexists; split; [rewrite <- ?app_assoc; reflexivity|reflexivity] ].

Ltac gate_cases :=
  repeat (cbn -[JSON_stringify_error json_stable_stringify time_delta num_gt
                String.eqb strict_neq];
          match goal with
          | |- context [if ?c then _ else _] => destruct c
          | |- context [match createVerify_RSA_SHA256 ?C ?a ?b ?d with _ => _ end] =>
              destruct (createVerify_RSA_SHA256 C a b d) as [[|]|]
          end).

Ltac frame_done :=
  cbn -[JSON_stringify_error json_stable_stringify];
  split; [reflexivity|split; [reflexivity|added_calls]].

Ltac run_all_gates :=
  unfold verify_request, verify_request_0, canonicalize, request_hash_of,
    debug_log, console_log, verify_signature, fail, set_statusCode, setHeader,
    response_end, update_response, bind, record, ret, lift, throw.

(** The gates of the three later revisions keep the key cache and add
    gate calls only. *)
Lemma verify_request_frame C select debug o w rq k s :
  let run := verify_request C select debug o w rq k s in
  fetched_public_key (snd run) = fetched_public_key s
  /\ last_public_key_update (snd run) = last_public_key_update s
  /\ exists added,
       calls (snd run) = (calls s ++ added)%list
       /\ forallb is_gate_call added = true.
Proof.
  run_all_gates.
  destruct (obj_get (req_headers rq) (hash (headers o))) as [[h|h]|];
    destruct (obj_get (req_headers rq) (signature (headers o))) as [[sg|sg]|];
    gate_cases; frame_done.
Qed.

Lemma verify_request_0_frame C o w rq k s :
  let run := verify_request_0 C o w rq k s in
  fetched_public_key (snd run) = fetched_public_key s
  /\ last_public_key_update (snd run) = last_public_key_update s
  /\ exists added,
       calls (snd run) = (calls s ++ added)%list
       /\ forallb is_gate_call added = true.
Proof.
  run_all_gates.
  destruct (obj_get (req_headers rq) (signature (headers o))) as [[sg|sg]|];
    gate_cases; frame_done.
Qed.

Lemma gates_frame v C o w rq k s :
  let run := gates v C o w rq k s in
  fetched_public_key (snd run) = fetched_public_key s
  /\ last_public_key_update (snd run) = last_public_key_update s
  /\ exists added,
       calls (snd run) = (calls s ++ added)%list
       /\ forallb is_gate_call added = true.
Proof.
  destruct v; simpl gates;
    first [apply verify_request_frame | apply verify_request_0_frame].
Qed.

(** X17. With the bypass off, whatever the request and however the call
    ends, the verifier leaves the key cache exactly as the key provider
    left it, and everything it calls after the key provider has answered
    is the serialiser, the digest, the signature check or a debug line:
    never the key provider again, never the network. *)
Theorem verification_keeps_key_cache (v : revision) (C : crypto) (o : options)
    (w : world) (rq : request) (s : state) :
  bypassed v o w = false ->
  let provided := key_provider v o w s in
  let run := verifier v C o w rq s in
  fetched_public_key (snd run) = fetched_public_key (snd provided)
  /\ last_public_key_update (snd run) = last_public_key_update (snd provided)
  /\ exists added,
       calls (snd run) = (calls (snd provided) ++ added)%list
       /\ forallb is_gate_call added = true.
Proof.
  intros Hb provided run. unfold run, provided.
  rewrite verifier_unfold by exact Hb. unfold bind.
  destruct (key_provider v o w s) as [[k|ex] s1]; cbn [snd].
  - destruct (truthy k); cbn [negb].
    + apply gates_frame.
    + rewrite fail_run. cbn. frame_done.
  - cbn. frame_done.
Qed.

Lemma verification_keeps_key_cache_witness :
  bypassed index_js endpoint_options
    (world_at 2000 (FetchResponds true 200 (Ret pem_key))) = false
  /\ fetched_public_key
       (snd (verifier index_js sample_crypto endpoint_options
               (world_at 2000 (FetchResponds true 200 (Ret pem_key)))
               signed_orders fresh_state))
     = Some pem_key
  /\ last_public_key_update
       (snd (verifier index_js sample_crypto endpoint_options
               (world_at 2000 (FetchResponds true 200 (Ret pem_key)))
               signed_orders fresh_state))
     = 2000.
Proof.
  split; [reflexivity|].
  pose proof (verification_keeps_key_cache index_js sample_crypto endpoint_options
                (world_at 2000 (FetchResponds true 200 (Ret pem_key)))
                signed_orders fresh_state eq_refl) as (H1 & H2 & _).
  split; [exact H1|exact H2].
Defined.

(* ------------------------------------------------------------------ *)
(** ** The factory and the endpoint *)

Lemma key_provider_run v o w s :
  key_provider v o w s
  = match v with
    | part_000_first => get_public_key_0 o w s
    | _ => get_public_key o w s
    end.
Proof. destruct v; reflexivity. Qed.

(** Whatever a key provider adds to the call log, a fetch among it goes to
    the configured endpoint and happens only without a static key. *)
Lemma key_provider_calls v o w s :
  exists added,
    calls (snd (key_provider v o w s)) = (calls s ++ added)%list
    /\ forall c, In c added -> is_fetch c = true ->
                 c = CallFetch (public_key_endpoint o)
                 /\ truthy (public_key o) = false.
Proof.
  assert (G : forall c : call, In c [CallGetPublicKey] -> is_fetch c = true -> False).
  { intros c [<-|[]] F. discriminate F. }
  rewrite key_provider_run.
  destruct v; rewrite ?get_public_key_run, ?get_public_key_0_run;
    (destruct (truthy (public_key o)) eqn:Hk;
     [eexists; split; [reflexivity|intros c Hc F; destruct (G c Hc F)]|]);
    (destruct (must_fetch o w s);
     [|eexists; split; [reflexivity|intros c Hc F; destruct (G c Hc F)]]);
    destruct (fetch_reply w) as [ex|[|] status [t|ex]];
    (eexists; split; [reflexivity|]);
    intros c Hc F; simpl in Hc;
    repeat (destruct Hc as [<-|Hc]; [try discriminate F; split; reflexivity|]);
    destruct Hc.
Qed.

(** X1. The factory throws exactly when neither the endpoint nor the
    static key the caller passes is a non-empty string. When it accepts,
    every fetch a key provider built on the merged options ever makes goes
    to the configured endpoint, which is then a non-empty string, and is
    made only when no static key is configured. *)
Theorem factory_key_source (v : revision) (w : world) (u : user_options) :
  ((exists e, fst (factory v w u) = Throw e)
   <-> truthy (u_public_key_endpoint u) = false /\ truthy (u_public_key u) = false)
  /\ (forall o,
        fst (factory v w u) = Ret o ->
        o = Object_assign default_options u
        /\ forall w' s,
             exists added,
               calls (snd (key_provider v o w' s)) = (calls s ++ added)%list
               /\ forall c, In c added -> is_fetch c = true ->
                    c = CallFetch (public_key_endpoint o)
                    /\ truthy (public_key_endpoint o) = true
                    /\ truthy (public_key o) = false).
Proof.
  assert (E : fst (factory v w u) = require_key_source (Object_assign default_options u))
    by (destruct v; reflexivity).
  assert (Pe : public_key_endpoint (Object_assign default_options u)
               = u_public_key_endpoint u)
    by (simpl; destruct (u_public_key_endpoint u); reflexivity).
  assert (Pk : public_key (Object_assign default_options u) = u_public_key u)
    by (simpl; destruct (u_public_key u); reflexivity).
  rewrite E. unfold require_key_source. rewrite Pe, Pk.
  split.
  - destruct (truthy (u_public_key_endpoint u)), (truthy (u_public_key u)); simpl;
      split;
      first [ intros [e He]; discriminate He
            | intros [F1 F2]; discriminate
            | intros _; split; reflexivity
            | intros _; eexists; reflexivity ].
  - intros o Ho.
    assert (Hs : truthy (u_public_key_endpoint u) || truthy (u_public_key u) = true).
    { destruct (truthy (u_public_key_endpoint u) || truthy (u_public_key u));
        [reflexivity|discriminate Ho]. }
    rewrite Hs in Ho. simpl in Ho. injection Ho as <-.
    split; [reflexivity|]. intros w' s.
    destruct (key_provider_calls v (Object_assign default_options u) w' s)
      as (added & Hc & Hf).
    exists added. split; [exact Hc|]. intros c Hin F.
    destruct (Hf c Hin F) as [H1 H2]. rewrite Pk in H2. rewrite Pe, Pk.
    split; [rewrite <- Pe; exact H1|]. split; [|exact H2].
    rewrite H2, orb_false_r in Hs. exact Hs.
Qed.

(* ------------------------------------------------------------------ *)
(** ** Fetches that give no key *)

Lemma verifier_without_key v C o w rq s k s1 :
  bypassed v o w = false ->
  key_provider v o w s = (Ret k, s1) ->
  truthy k = false ->
  verifier v C o w rq s
  = fail (content_type v) internal_server_error e_missing_key m_missing_key s1.
Proof.
  intros Hb Hk Ht. rewrite verifier_unfold by exact Hb.
  unfold bind. rewrite Hk, Ht. reflexivity.
Qed.

(** X5. In the guarded provider of [src/index.js] a failed fetch
    (rejected promise, non-success status or failing body read) returns no
    key, empties the cache, leaves the time of the last update alone and
    prints one warning; the call after it goes to the endpoint again,
    whatever its clock reads. *)
Theorem failed_fetch_clears_and_refetches (o : options) (w : world) (s : state) :
  truthy (public_key o) = false ->
  must_fetch o w s = true ->
  fetch_fails w = true ->
  fst (get_public_key o w s) = Ret None
  /\ fetched_public_key (snd (get_public_key o w s)) = None
  /\ last_public_key_update (snd (get_public_key o w s)) = last_public_key_update s
  /\ (exists warning,
        calls (snd (get_public_key o w s))
        = (calls s ++ [CallGetPublicKey; CallFetch (public_key_endpoint o);
                       CallWarn warning])%list)
  /\ forall w2,
       exists rest,
         calls (snd (get_public_key o w2 (snd (get_public_key o w s))))
         = (calls (snd (get_public_key o w s))
              ++ CallGetPublicKey :: CallFetch (public_key_endpoint o) :: rest)%list.
Proof.
  intros Hk Hm Hf.
  destruct (get_public_key_fetch_failure o w s Hk Hm Hf) as [warning E].
  rewrite E. cbn [fst snd].
  split; [reflexivity|]. split; [reflexivity|]. split; [reflexivity|].
  split; [exists warning; reflexivity|].
  intros w2.
  destruct (get_public_key_empty_cache_fetches o w2
              (with_cache s None (last_public_key_update s)
                 [CallGetPublicKey; CallFetch (public_key_endpoint o);
                  CallWarn warning]) Hk eq_refl)
    as (r & s2 & rest & E2 & Hc).
  exists rest. rewrite E2. exact Hc.
Qed.

Lemma failed_fetch_clears_and_refetches_witness :
  fst (get_public_key endpoint_options (world_at 1000 refused) fresh_state) = Ret None
  /\ fetched_public_key
       (snd (get_public_key endpoint_options (world_at 1000 refused) fresh_state))
     = None.
Proof.
  pose proof (failed_fetch_clears_and_refetches endpoint_options
                (world_at 1000 refused) fresh_state eq_refl eq_refl eq_refl)
    as (H1 & H2 & _).
  split; [exact H1|exact H2].
Defined.

(** X6. A 200 answer with an empty body is no key: the verifier answers
    500 [missing public key], the cache holds the empty string, which no
    later call accepts as a key, so the next call fetches again whatever
    its clock reads; the guarded provider does not even advance the time
    of the last update. *)
Theorem empty_key_body_is_no_key (v : revision) (C : crypto) (o : options)
    (w : world) (rq : request) (s : state) (status : Z) :
  bypassed v o w = false ->
  truthy (public_key o) = false ->
  must_fetch o w s = true ->
  fetch_reply w = FetchResponds true status (Ret "") ->
  rejects (verifier v C o w rq s) s 500 e_missing_key
  /\ fetched_public_key (snd (verifier v C o w rq s)) = Some ""
  /\ (forall w2, must_fetch o w2 (snd (verifier v C o w rq s)) = true)
  /\ (v <> part_000_first ->
      last_public_key_update (snd (verifier v C o w rq s)) = last_public_key_update s).
Proof.
  intros Hb Hk Hm Hf.
  assert (E : exists t,
             key_provider v o w s
             = (Ret (Some ""),
                with_cache s (Some "") t
                  [CallGetPublicKey; CallFetch (public_key_endpoint o)])
             /\ (v <> part_000_first -> t = last_public_key_update s)).
  { rewrite key_provider_run.
    destruct v; rewrite ?get_public_key_run, ?get_public_key_0_run, Hk, Hm, Hf;
      eexists; (split; [reflexivity|]); first [reflexivity|congruence]. }
  destruct E as (t & E & Ht).
  rewrite (verifier_without_key v C o w rq s _ _ Hb E eq_refl).
  split; [apply fail_rejects; reflexivity|]. rewrite fail_run. cbn.
  split; [reflexivity|]. split; [intros w2; reflexivity|exact Ht].
Qed.

Lemma empty_key_body_is_no_key_witness :
  rejects (verifier index_js sample_crypto endpoint_options
             (world_at 1000 (FetchResponds true 200 (Ret ""))) signed_orders
             fresh_state)
          fresh_state 500 e_missing_key.
Proof.
  exact (proj1 (empty_key_body_is_no_key index_js sample_crypto endpoint_options
                  (world_at 1000 (FetchResponds true 200 (Ret ""))) signed_orders
                  fresh_state 200 eq_refl eq_refl eq_refl eq_refl)).
Defined.

(** X7. When the endpoint answers with a non-success status, every
    revision answers 500 [missing public key] without looking at the
    request: the cache is empty afterwards, the time of the last update is
    what it was, and after the fetch nothing is called but the warning of
    the guarded provider. *)
Theorem non_success_status_is_missing_key (v : revision) (C : crypto)
    (o : options) (w : world) (rq : request) (s : state) (status : Z)
    (text : outcome string) :
  bypassed v o w = false ->
  truthy (public_key o) = false ->
  must_fetch o w s = true ->
  fetch_reply w = FetchResponds false status text ->
  rejects (verifier v C o w rq s) s 500 e_missing_key
  /\ fetched_public_key (snd (verifier v C o w rq s)) = None
  /\ last_public_key_update (snd (verifier v C o w rq s)) = last_public_key_update s
  /\ exists warnings,
       calls (snd (verifier v C o w rq s))
       = (calls s ++ CallGetPublicKey :: CallFetch (public_key_endpoint o) :: warnings)%list
       /\ forallb (fun c => match c with CallWarn _ => true | _ => false end) warnings
          = true.
Proof.
  intros Hb Hk Hm Hf.
  assert (E : exists warnings,
             key_provider v o w s
             = (Ret None,
                with_cache s None (last_public_key_update s)
                  (CallGetPublicKey :: CallFetch (public_key_endpoint o) :: warnings))
             /\ forallb (fun c => match c with CallWarn _ => true | _ => false end)
                  warnings = true).
  { rewrite key_provider_run.
    destruct v; rewrite ?get_public_key_run, ?get_public_key_0_run, Hk, Hm, Hf;
      eexists; (split; [reflexivity|]); reflexivity. }
  destruct E as (warnings & E & Hw).
  rewrite (verifier_without_key v C o w rq s _ _ Hb E eq_refl).
  split; [apply fail_rejects; reflexivity|]. rewrite fail_run. cbn.
  split; [reflexivity|]. split; [reflexivity|].
  exists warnings. split; [reflexivity|exact Hw].
Qed.

Lemma non_success_status_is_missing_key_witness :
  rejects (verifier part_000_first sample_crypto endpoint_options
             (world_at 1000 (FetchResponds false 503 (Ret "unavailable")))
             signed_orders fresh_state)
          fresh_state 500 e_missing_key
  /\ fetched_public_key
       (snd (verifier part_000_first sample_crypto endpoint_options
               (world_at 1000 (FetchResponds false 503 (Ret "unavailable")))
               signed_orders fresh_state)) = None.
Proof.
  pose proof (non_success_status_is_missing_key part_000_first sample_crypto
                endpoint_options
                (world_at 1000 (FetchResponds false 503 (Ret "unavailable")))
                signed_orders fresh_state 503 (Ret "unavailable")
                eq_refl eq_refl eq_refl eq_refl) as (H1 & H2 & _).
  split; [exact H1|exact H2].
Defined.

(** X4. No key provider hands over a key that has outlived the grace
    period: when the cached key is older than that, a key returned by the
    call is the body the endpoint has just answered with. *)
Theorem stale_key_never_returned (v : revision) (o : options) (w : world)
    (s : state) (k : string) :
  truthy (public_key o) = false ->
  now_get_public_key w - last_public_key_update s > grace_period o ->
  fst (key_provider v o w s) = Ret (Some k) ->
  exists status, fetch_reply w = FetchResponds true status (Ret k).
Proof.
  intros Hk Hlate.
  assert (Hm : must_fetch o w s = true).
  { unfold must_fetch.
    replace (now_get_public_key w - last_public_key_update s >? grace_period o)
      with true by (symmetry; apply Z.gtb_lt; lia).
    apply orb_true_r. }
  rewrite key_provider_run.
  destruct v; rewrite ?get_public_key_run, ?get_public_key_0_run, Hk, Hm;
    destruct (fetch_reply w) as [ex|[|] status [t|ex]]; cbn [fst];
    intros E; try discriminate E; injection E as ->; eauto.
Qed.

Lemma stale_key_never_returned_witness :
  exists status,
    fetch_reply (world_at 301001 (FetchResponds true 200 (Ret "-----BEGIN NEW KEY")))
    = FetchResponds true status (Ret "-----BEGIN NEW KEY").
Proof.
  apply (stale_key_never_returned part_000_first endpoint_options
           (world_at 301001 (FetchResponds true 200 (Ret "-----BEGIN NEW KEY")))
           state_after_fetch "-----BEGIN NEW KEY").
  - reflexivity.
  - vm_compute. reflexivity.
  - reflexivity.
Defined.

(* ------------------------------------------------------------------ *)
(** ** What the verdict does not depend on *)

Lemma time_delta_clock o w w' rq :
  now_middleware w' = now_middleware w -> time_delta o w' rq = time_delta o w rq.
Proof. unfold time_delta. intros ->. reflexivity. Qed.

Ltac indep_done Hr :=
  cbn -[JSON_stringify_error json_stable_stringify]; rewrite ?Hr;
  split; reflexivity.

(** The gates read the world for the clock of the freshness check and the
    debug switch, and the state for the response: verdict and response are
    the same in two worlds with the same clock and two states with the
    same response. *)
Lemma verify_request_indep C select debug debug' o w w' rq k s s' :
  now_middleware w' = now_middleware w ->
  resp s' = resp s ->
  fst (verify_request C select debug' o w' rq k s')
  = fst (verify_request C select debug o w rq k s)
  /\ resp (snd (verify_request C select debug' o w' rq k s'))
     = resp (snd (verify_request C select debug o w rq k s)).
Proof.
  intros Hn Hr. pose proof (time_delta_clock o w w' rq Hn) as Ht.
  run_all_gates. rewrite Ht.
  destruct (obj_get (req_headers rq) (hash (headers o))) as [[h|h]|];
    destruct (obj_get (req_headers rq) (signature (headers o))) as [[sg|sg]|];
    gate_cases; indep_done Hr.
Qed.

Lemma verify_request_0_indep C o w w' rq k s s' :
  now_middleware w' = now_middleware w ->
  resp s' = resp s ->
  fst (verify_request_0 C o w' rq k s') = fst (verify_request_0 C o w rq k s)
  /\ resp (snd (verify_request_0 C o w' rq k s'))
     = resp (snd (verify_request_0 C o w rq k s)).
Proof.
  intros Hn Hr. pose proof (time_delta_clock o w w' rq Hn) as Ht.
  run_all_gates. rewrite Ht.
  destruct (obj_get (req_headers rq) (signature (headers o))) as [[sg|sg]|];
    gate_cases; indep_done Hr.
Qed.

Lemma gates_indep v C o w w' rq k s s' :
  now_middleware w' = now_middleware w ->
  resp s' = resp s ->
  fst (gates v C o w' rq k s') = fst (gates v C o w rq k s)
  /\ resp (snd (gates v C o w' rq k s')) = resp (snd (gates v C o w rq k s)).
Proof.
  intros Hn Hr. destruct v; simpl gates;
    first [ apply verify_request_indep; assumption
          | apply verify_request_0_indep; assumption ].
Qed.

Lemma gate_calls_no_fetch added :
  forallb is_gate_call added = true -> filter is_fetch added = [].
Proof.
  induction added as [|c added IH]; simpl; [reflexivity|].
  intros H. apply andb_true_iff in H. destruct H as [Hc H].
  destruct c; simpl in *; try discriminate Hc; apply IH; exact H.
Qed.

Lemma static_key_run v o w s :
  truthy (public_key o) = true ->
  key_provider v o w s
  = (Ret (public_key o),
     with_cache s (fetched_public_key s) (last_public_key_update s)
       [CallGetPublicKey]).
Proof.
  intros Hk. rewrite key_provider_run.
  destruct v; rewrite ?get_public_key_run, ?get_public_key_0_run, Hk; reflexivity.
Qed.

(** X2. With a static key configured, the endpoint is never called and
    the cache is never touched, even when an endpoint is configured too;
    verdict and response are then the same whatever the endpoint would
    answer, whatever the key clock reads, whatever the cache holds and
    whether the debug switch is on. *)
Theorem static_key_ignores_network_and_cache (v : revision) (C : crypto)
    (o : options) (w w' : world) (rq : request) (s s' : state) :
  truthy (public_key o) = true ->
  SKIP_GATEWAY_VERIFICATION w' = SKIP_GATEWAY_VERIFICATION w ->
  now_middleware w' = now_middleware w ->
  resp s' = resp s ->
  fst (verifier v C o w' rq s') = fst (verifier v C o w rq s)
  /\ resp (snd (verifier v C o w' rq s')) = resp (snd (verifier v C o w rq s))
  /\ filter is_fetch (calls (snd (verifier v C o w rq s))) = filter is_fetch (calls s)
  /\ fetched_public_key (snd (verifier v C o w rq s)) = fetched_public_key s
  /\ last_public_key_update (snd (verifier v C o w rq s)) = last_public_key_update s.
Proof.
  intros Hk Hskip Hn Hr.
  assert (Hbb : bypassed v o w' = bypassed v o w).
  { destruct v; simpl; try reflexivity. rewrite Hskip. reflexivity. }
  destruct (bypassed v o w) eqn:Hb.
  - destruct v; simpl in Hb, Hbb; try discriminate Hb; simpl verifier.
    + unfold middleware. rewrite Hb, Hbb. cbn. rewrite Hr. repeat split.
    + unfold middleware_1. rewrite Hb. cbn. rewrite Hr. repeat split.
  - rewrite !verifier_unfold by congruence. unfold bind.
    rewrite !static_key_run by exact Hk. rewrite Hk. cbn [negb].
    split; [|split].
    + apply gates_indep; [exact Hn|exact Hr].
    + apply gates_indep; [exact Hn|exact Hr].
    + destruct (gates_frame v C o w rq (public_key o)
                  (with_cache s (fetched_public_key s) (last_public_key_update s)
                     [CallGetPublicKey])) as (Hf & Hl & added & Hc & Hg).
      rewrite Hc, Hf, Hl. cbn. rewrite <- app_assoc, !filter_app.
      rewrite (gate_calls_no_fetch added Hg). cbn. rewrite app_nil_r.
      repeat split.
Qed.

Lemma static_key_ignores_network_and_cache_witness :
  fst (verifier index_js sample_crypto static_options
         (world_at 2000 (FetchResponds true 200 (Ret "another key")))
         signed_orders state_after_fetch)
  = fst (verifier index_js sample_crypto static_options (world_at 2000 refused)
           signed_orders fresh_state).
Proof.
  exact (proj1 (static_key_ignores_network_and_cache index_js sample_crypto
                  static_options (world_at 2000 refused)
                  (world_at 2000 (FetchResponds true 200 (Ret "another key")))
                  signed_orders fresh_state state_after_fetch
                  eq_refl eq_refl eq_refl eq_refl)).
Defined.

Lemma cache_hit_run v o w s :
  truthy (public_key o) = false ->
  must_fetch o w s = false ->
  key_provider v o w s
  = (Ret (fetched_public_key s),
     with_cache s (fetched_public_key s) (last_public_key_update s)
       [CallGetPublicKey]).
Proof.
  intros Hk Hm. rewrite key_provider_run.
  destruct v; rewrite ?get_public_key_run, ?get_public_key_0_run, Hk, Hm; reflexivity.
Qed.

(** X3. Once a key fetched at time [t0] is in the cache, any number of
    verifications whose key clock is within the grace period of [t0] run
    without a single call to the endpoint, and the cache is still that key
    with that time after the last of them. *)
Theorem key_reused_across_verifications (v : revision) (C : crypto)
    (o : options) (k : string) (t0 : Z) (rs : list (world * request)) :
  forall s,
  truthy (public_key o) = false ->
  fetched_public_key s = Some k ->
  truthy (Some k) = true ->
  last_public_key_update s = t0 ->
  Forall (fun wr => bypassed v o (fst wr) = false
                    /\ now_get_public_key (fst wr) - t0 <= grace_period o) rs ->
  fetched_public_key (snd (verifier_runs v C o rs s)) = Some k
  /\ last_public_key_update (snd (verifier_runs v C o rs s)) = t0
  /\ filter is_fetch (calls (snd (verifier_runs v C o rs s)))
     = filter is_fetch (calls s).
Proof.
  induction rs as [|[w rq] rs IH]; intros s Hk Hc Ht Hl Hrs; simpl.
  - repeat split; assumption.
  - inversion Hrs as [|? ? [Hb Hw] Hrs']; subst. simpl in Hb, Hw.
    assert (Hm : must_fetch o w s = false).
    { unfold must_fetch. rewrite Hc, Ht. simpl.
      rewrite Z.gtb_ltb. apply Z.ltb_ge. exact Hw. }
    pose proof (cache_hit_run v o w s Hk Hm) as Hrun.
    assert (Hp : provides (key_provider v o w s) k).
    { rewrite Hrun, Hc. split; [reflexivity|exact Ht]. }
    rewrite (verifier_reaches_gates v C o w rq s k Hb Hp), Hrun. cbn [snd].
    destruct (gates_frame v C o w rq (Some k)
                (with_cache s (fetched_public_key s) (last_public_key_update s)
                   [CallGetPublicKey])) as (Hf & Hlast & added & Hcalls & Hg).
    destruct (gates v C o w rq (Some k) _) as [r s1]. cbn [snd] in *.
    cbn in Hf, Hlast, Hcalls.
    specialize (IH s1 Hk (eq_trans Hf Hc) Ht Hlast Hrs').
    destruct (verifier_runs v C o rs s1) as [out s2]. cbn [snd] in *.
    destruct IH as (H1 & H2 & H3).
    split; [exact H1|]. split; [exact H2|].
    rewrite H3, Hcalls, <- app_assoc, !filter_app.
    rewrite (gate_calls_no_fetch added Hg). cbn. rewrite app_nil_r. reflexivity.
Qed.

Lemma key_reused_across_verifications_witness :
  filter is_fetch
    (calls (snd (verifier_runs part_000_second sample_crypto endpoint_options
                   [(world_at 2000 refused, signed_orders);
                    (world_at 301000 refused, orders_without_hash)]
                   state_after_fetch)))
  = filter is_fetch (calls state_after_fetch).
Proof.
  refine (proj2 (proj2 (key_reused_across_verifications part_000_second
            sample_crypto endpoint_options pem_key 1000
            [(world_at 2000 refused, signed_orders);
             (world_at 301000 refused, orders_without_hash)]
            state_after_fetch eq_refl eq_refl eq_refl eq_refl _))).
  repeat constructor; vm_compute; intros F; discriminate F.
Defined.

(** The debug switch is not read by the key providers. *)
Lemma key_provider_without_debug v o w s :
  key_provider v o (without_debug w) s = key_provider v o w s.
Proof. destruct v; reflexivity. Qed.

Ltac quiet_done :=
  cbn -[JSON_stringify_error json_stable_stringify];
  rewrite ?filter_app; cbn -[JSON_stringify_error json_stable_stringify];
  rewrite ?app_nil_r; reflexivity.

Lemma verify_request_without_debug C select debug o w rq k s :
  filter (fun c => negb (is_log c))
    (calls (snd (verify_request C select debug o (without_debug w) rq k s)))
  = filter (fun c => negb (is_log c))
      (calls (snd (verify_request C select debug o w rq k s))).
Proof.
  pose proof (time_delta_clock o w (without_debug w) rq eq_refl) as Ht.
  run_all_gates. rewrite Ht.
  destruct (obj_get (req_headers rq) (hash (headers o))) as [[h|h]|];
    destruct (obj_get (req_headers rq) (signature (headers o))) as [[sg|sg]|];
    gate_cases; quiet_done.
Qed.

(** X13. The debug switch of [src/index.js] and [src/unnamed/part_001]
    adds lines to the console and nothing else: with
    [API_GATEWAY_MIDDLEWARE_DEBUG] set or unset the verdict, the response
    and the key cache are the same, and so are the calls made once the
    [console.log] lines are left out. *)
Theorem debug_switch_only_logs (v : revision) (C : crypto) (o : options)
    (w : world) (rq : request) (s : state) :
  fst (verifier v C o (without_debug w) rq s) = fst (verifier v C o w rq s)
  /\ resp (snd (verifier v C o (without_debug w) rq s))
     = resp (snd (verifier v C o w rq s))
  /\ fetched_public_key (snd (verifier v C o (without_debug w) rq s))
     = fetched_public_key (snd (verifier v C o w rq s))
  /\ last_public_key_update (snd (verifier v C o (without_debug w) rq s))
     = last_public_key_update (snd (verifier v C o w rq s))
  /\ filter (fun c => negb (is_log c))
       (calls (snd (verifier v C o (without_debug w) rq s)))
     = filter (fun c => negb (is_log c)) (calls (snd (verifier v C o w rq s))).
Proof.
  destruct (bypassed v o w) eqn:Hb.
  - destruct v; simpl in Hb; try discriminate Hb; simpl verifier.
    + unfold middleware. cbn [SKIP_GATEWAY_VERIFICATION without_debug].
      rewrite Hb. repeat split.
    + unfold middleware_1. rewrite Hb. repeat split.
  - assert (Hb' : bypassed v o (without_debug w) = false)
      by (destruct v; exact Hb).
    rewrite !verifier_unfold by assumption. unfold bind.
    rewrite key_provider_without_debug.
    destruct (key_provider v o w s) as [[k|ex] s1]; [|repeat split].
    destruct (truthy k); cbn [negb]; [|repeat split].
    destruct (gates_indep v C o w (without_debug w) rq k s1 s1 eq_refl eq_refl)
      as [H1 H2].
    destruct (gates_frame v C o w rq k s1) as (F1 & L1 & _).
    destruct (gates_frame v C o (without_debug w) rq k s1) as (F2 & L2 & _).
    split; [exact H1|]. split; [exact H2|].
    split; [congruence|]. split; [congruence|].
    destruct v; simpl gates; try apply verify_request_without_debug.
    reflexivity.
Qed.

(* ------------------------------------------------------------------ *)
(** ** The order of the gates *)

(** X8. In the three revisions with header gates, a request that has a
    hash header but no string in the signature header is answered 400
    with the kind [missing or malformed request hash signature], and
    nothing is serialised, hashed or checked for it: the call log is as
    the key provider left it. *)
Theorem absent_signature_header_rejected (v : revision) (C : crypto)
    (o : options) (w : world) (rq : request) (s : state) (k h : string) :
  v <> part_000_first ->
  bypassed v o w = false ->
  provides (key_provider v o w s) k ->
  is_string (hash_header o rq) = Some h ->
  is_string (signature_header o rq) = None ->
  rejects (verifier v C o w rq s) s 400 e_missing_signature
  /\ calls (snd (verifier v C o w rq s)) = calls (snd (key_provider v o w s)).
Proof.
  intros Hv Hb Hk H1 H2.
  rewrite (verifier_reaches_gates v C o w rq s k Hb Hk).
  pose proof (key_provider_resp v o w s) as Hr.
  destruct v; try congruence; simpl gates;
    rewrite (gate_signature_header _ _ _ _ _ _ _ _ h H1 H2);
    (split; [apply fail_rejects; exact Hr|rewrite fail_run; reflexivity]).
Qed.

Lemma absent_signature_header_rejected_witness :
  rejects (verifier index_js sample_crypto static_options (world_at 2000 refused)
             orders_without_signature fresh_state)
          fresh_state 400 e_missing_signature.
Proof.
  refine (proj1 (absent_signature_header_rejected index_js sample_crypto
                   static_options (world_at 2000 refused) orders_without_signature
                   fresh_state pem_key orders_hash
                   _ eq_refl (conj eq_refl eq_refl) eq_refl eq_refl)).
  discriminate.
Defined.

(** X9. For a call that reaches the freshness gate, the request is
    answered [expired request] exactly when the delta between the clock
    and the declared time exceeds the grace period, whatever its hash and
    signature are; there is no lower bound, so a request dated in the
    future is never expired. *)
Theorem expired_iff_delta_exceeds_grace (v : revision) (C : crypto)
    (o : options) (w : world) (rq : request) (s : state) (k h sg : string)
    (d : Z) :
  bypassed v o w = false ->
  provides (key_provider v o w s) k ->
  is_string (hash_header o rq) = Some h ->
  is_string (signature_header o rq) = Some sg ->
  time_delta o w rq = Num d ->
  (rejects (verifier v C o w rq s) s 400 e_expired <-> d > grace_period o).
Proof.
  intros Hb Hk H1 H2 Hd.
  pose proof (key_provider_resp v o w s) as Hr.
  destruct (Z.gtb_spec d (grace_period o)) as [Hgt|Hle].
  - split; [intros _; lia|]. intros _.
    rewrite (verifier_reaches_gates v C o w rq s k Hb Hk).
    eapply gates_freshness; try eassumption.
    rewrite Hd. simpl. apply Z.gtb_lt. lia.
  - split; [|lia]. intros Hrej. exfalso.
    refine (not_expired C o w rq v s 400 _ Hrej).
    rewrite Hd. simpl. rewrite Z.gtb_ltb. apply Z.ltb_ge. exact Hle.
Qed.

Lemma expired_iff_delta_exceeds_grace_witness :
  ~ rejects (verifier part_001 sample_crypto static_options (world_at 400 refused)
               signed_orders fresh_state)
            fresh_state 400 e_expired.
Proof.
  intros Hrej.
  pose proof (proj1 (expired_iff_delta_exceeds_grace part_001 sample_crypto
                       static_options (world_at 400 refused) signed_orders
                       fresh_state pem_key orders_hash ("signed:" ++ orders_hash)
                       (-600) eq_refl (conj eq_refl eq_refl) eq_refl eq_refl
                       eq_refl) Hrej) as H.
  vm_compute in H. discriminate H.
Defined.

(** X11. A request that passes the freshness gate and the hash
    comparison, and whose signature the library reports as not valid, is
    answered 400 with the kind [invalid request hash signature]. *)
Theorem invalid_signature_rejected (v : revision) (C : crypto) (o : options)
    (w : world) (rq : request) (s : state) (k h sg : string) :
  bypassed v o w = false ->
  provides (key_provider v o w s) k ->
  is_string (hash_header o rq) = Some h ->
  is_string (signature_header o rq) = Some sg ->
  num_gt (time_delta o w rq) (Num (grace_period o)) = false ->
  String.eqb (request_hash C (selection v) o rq) h = true ->
  createVerify_RSA_SHA256 C (request_hash C (selection v) o rq) k sg = Ret false ->
  rejects (verifier v C o w rq s) s 400 e_invalid_signature.
Proof.
  intros Hb Hk H1 H2 Hn Hh Hc.
  pose proof (key_provider_resp v o w s) as Hr.
  rewrite (verifier_reaches_gates v C o w rq s k Hb Hk).
  pose proof (gates_signature v C o w rq _ s (Some k) h sg Hr H1 H2 Hn Hh) as [Hg _].
  simpl or_default in Hg. rewrite Hc in Hg. exact Hg.
Qed.

Lemma invalid_signature_rejected_witness :
  rejects (verifier index_js sample_crypto static_options (world_at 2000 refused)
             orders_wrong_signature fresh_state)
          fresh_state 400 e_invalid_signature.
Proof.
  exact (invalid_signature_rejected index_js sample_crypto static_options
           (world_at 2000 refused) orders_wrong_signature fresh_state
           pem_key orders_hash "forged"
           eq_refl (conj eq_refl eq_refl) eq_refl eq_refl eq_refl eq_refl eq_refl).
Defined.

(** Every way the gates end, with the response kept on acceptance. *)
Lemma verifier_ended v C o w rq s :
  (fst (verifier v C o w rq s) = Ret false
   /\ exists body, ended (resp (snd (verifier v C o w rq s)))
                   = (ended (resp s) ++ [body])%list)
  \/ (fst (verifier v C o w rq s) <> Ret false
      /\ ended (resp (snd (verifier v C o w rq s))) = ended (resp s)
      /\ statusCode (resp (snd (verifier v C o w rq s))) = statusCode (resp s)).
Proof.
  destruct (bypassed v o w) eqn:Hb.
  { right. destruct v; simpl in Hb; try discriminate Hb; simpl verifier.
    - unfold middleware. rewrite Hb. cbn. repeat split. discriminate.
    - unfold middleware_1. rewrite Hb. cbn. repeat split. discriminate. }
  rewrite verifier_unfold by exact Hb.
  pose proof (key_provider_resp v o w s) as Hr.
  unfold bind. destruct (key_provider v o w s) as [[k|ex] s1]; simpl in Hr.
  - destruct (truthy k); cbn [negb].
    + destruct (gates_cases C o w rq v k s1 s Hr)
        as [[Ha Hb']|[(e & _ & (ct & m & Hf & Hrr) & _)|(ex & Ht & Hrr & _)]].
      * right. rewrite Ha, Hb'. repeat split. discriminate.
      * left. split; [exact Hf|]. rewrite Hrr. eexists. reflexivity.
      * right. rewrite Ht, Hrr. repeat split. discriminate.
    + left. rewrite fail_run. cbn. rewrite Hr. split; [reflexivity|].
      eexists. reflexivity.
  - right. cbn. rewrite Hr. repeat split. discriminate.
Qed.

(** X12. The verifier writes to the response exactly when it returns
    [false], and then exactly one body: a call that returns [true] or ends
    with an exception leaves the status code as it was and hands no body
    to [end]. *)
Theorem one_body_exactly_when_false (v : revision) (C : crypto) (o : options)
    (w : world) (rq : request) (s : state) :
  (fst (verifier v C o w rq s) = Ret false <->
   exists body, ended (resp (snd (verifier v C o w rq s)))
                = (ended (resp s) ++ [body])%list)
  /\ (fst (verifier v C o w rq s) <> Ret false ->
      ended (resp (snd (verifier v C o w rq s))) = ended (resp s)
      /\ statusCode (resp (snd (verifier v C o w rq s))) = statusCode (resp s)).
Proof.
  destruct (verifier_ended v C o w rq s) as [[Hf Hb]|[Hn [He Hs]]].
  - split; [split; [intros _; exact Hb|intros _; exact Hf]|].
    intros F. contradiction.
  - split; [|intros _; split; assumption].
    split; [intros F; contradiction|].
    intros [body Hb]. rewrite He in Hb.
    apply (f_equal (@List.length string)) in Hb.
    rewrite length_app in Hb. simpl in Hb. lia.
Qed.

(** The calls a key provider makes are [get_public_key] itself, the fetch
    and a warning. *)
Lemma provider_adds_no_verify (l : list call) h key sg :
  forallb (fun c => negb (is_gate_call c)) l = true ->
  ~ In (CallCreateVerify h key sg) l.
Proof.
  intros Hl Hin. rewrite forallb_forall in Hl. specialize (Hl _ Hin).
  discriminate Hl.
Qed.

Lemma key_provider_no_gate_calls v o w s :
  exists added,
    calls (snd (key_provider v o w s)) = (calls s ++ added)%list
    /\ forallb (fun c => negb (is_gate_call c)) added = true.
Proof.
  rewrite key_provider_run.
  destruct v; rewrite ?get_public_key_run, ?get_public_key_0_run;
    destruct (truthy (public_key o)); try (eexists; split; reflexivity);
    destruct (must_fetch o w s); try (eexists; split; reflexivity);
    destruct (fetch_reply w) as [ex|[|] status [t|ex]];
    eexists; split; reflexivity.
Qed.

Ltac only_verify_call Hin :=
  simpl in Hin;
  repeat (destruct Hin as [Hin|Hin]; [try discriminate Hin|]);
  try contradiction.

(** What the gates of the later revisions hand to the signature library,
    when they do. *)
Lemma verify_request_verify_call C select debug o w rq k s :
  exists added,
    calls (snd (verify_request C select debug o w rq k s)) = (calls s ++ added)%list
    /\ forall h key sg,
         In (CallCreateVerify h key sg) added ->
         key = or_default k ""
         /\ h = request_hash C select o rq
         /\ hash_header o rq = Some (HStr h)
         /\ sg = signature_header o rq
         /\ num_gt (time_delta o w rq) (Num (grace_period o)) = false.
Proof.
  unfold hash_header, signature_header, request_hash. run_all_gates.
  destruct (obj_get (req_headers rq) (hash (headers o))) as [[h0|h0]|] eqn:Hh;
    try (cbn; exists []; split; [rewrite app_nil_r; reflexivity|intros ? ? ? []]).
  destruct (obj_get (req_headers rq) (signature (headers o))) as [[sg0|sg0]|] eqn:Hs;
    try (cbn; exists []; split; [rewrite app_nil_r; reflexivity|intros ? ? ? []]).
  cbn -[num_gt time_delta String.eqb JSON_stringify_error json_stable_stringify
        request_as_string].
  destruct (num_gt (time_delta o w rq) (Num (grace_period o))) eqn:Hd;
    destruct (String.eqb
                (createHash_SHA256_base64 C (request_as_string rq (select o rq))) h0)
      eqn:He;
    destruct debug; try destruct (truthy (API_GATEWAY_MIDDLEWARE_DEBUG w));
    cbn -[num_gt time_delta String.eqb JSON_stringify_error json_stable_stringify
          request_as_string];
    rewrite ?Hd, ?He;
    cbn -[num_gt time_delta String.eqb JSON_stringify_error json_stable_stringify
          request_as_string];
    try destruct (createVerify_RSA_SHA256 C _ _ sg0) as [[|]|ex];
    cbn -[JSON_stringify_error json_stable_stringify request_as_string];
    (eexists; split; [rewrite <- ?app_assoc; reflexivity|]);
    intros h key sg Hin; only_verify_call Hin;
    injection Hin as <- <- <-; apply String.eqb_eq in He; subst h0;
    repeat split.
Qed.

Lemma verify_request_0_verify_call C o w rq k s :
  exists added,
    calls (snd (verify_request_0 C o w rq k s)) = (calls s ++ added)%list
    /\ forall h key sg,
         In (CallCreateVerify h key sg) added ->
         key = or_default k ""
         /\ h = request_hash C headers_to_verify_all_except o rq
         /\ hash_header o rq = Some (HStr h)
         /\ sg = signature_header o rq
         /\ num_gt (time_delta o w rq) (Num (grace_period o)) = false.
Proof.
  unfold hash_header, signature_header, request_hash. run_all_gates.
  cbn -[num_gt time_delta strict_neq JSON_stringify_error json_stable_stringify
        request_as_string].
  destruct (num_gt (time_delta o w rq) (Num (grace_period o))) eqn:Hd;
    destruct (strict_neq
                (createHash_SHA256_base64 C
                   (request_as_string rq (headers_to_verify_all_except o rq)))
                (obj_get (req_headers rq) (hash (headers o)))) eqn:He;
    cbn -[num_gt time_delta strict_neq JSON_stringify_error json_stable_stringify
          request_as_string];
    try (eexists; split; [rewrite <- ?app_assoc; reflexivity|];
         intros h key sg Hin; only_verify_call Hin; fail).
  destruct (obj_get (req_headers rq) (hash (headers o))) as [[h0|h0]|];
    simpl in He; try discriminate He.
  apply negb_false_iff, String.eqb_eq in He. subst h0.
  destruct (obj_get (req_headers rq) (signature (headers o))) as [[sg0|sg0]|];
    cbn -[JSON_stringify_error json_stable_stringify request_as_string];
    try destruct (createVerify_RSA_SHA256 C _ _ sg0) as [[|]|ex];
    cbn -[JSON_stringify_error json_stable_stringify request_as_string];
    (eexists; split; [rewrite <- ?app_assoc; reflexivity|]);
    intros h key sg Hin; only_verify_call Hin;
    injection Hin as <- <- <-; repeat split.
Qed.

(** X10. The signature library is called only on a request that has
    passed every earlier gate: whenever a call of the verifier hands
    something to [verify], the bypass is off, the key is the usable key the
    provider has just returned, the data is the digest the verifier
    computed, that digest equals the hash header, the signature is what
    the signature header holds, and the delta does not exceed the grace
    period. *)
Theorem signature_checked_only_after_gates (v : revision) (C : crypto)
    (o : options) (w : world) (rq : request) (s : state) :
  exists added,
    calls (snd (verifier v C o w rq s)) = (calls s ++ added)%list
    /\ forall h key sg,
         In (CallCreateVerify h key sg) added ->
         bypassed v o w = false
         /\ provides (key_provider v o w s) key
         /\ h = request_hash C (selection v) o rq
         /\ hash_header o rq = Some (HStr h)
         /\ sg = signature_header o rq
         /\ num_gt (time_delta o w rq) (Num (grace_period o)) = false.
Proof.
  destruct (bypassed v o w) eqn:Hb.
  { exists []. split; [|intros ? ? ? []]. rewrite app_nil_r.
    destruct v; simpl in Hb; try discriminate Hb; simpl verifier.
    - unfold middleware. rewrite Hb. reflexivity.
    - unfold middleware_1. rewrite Hb. reflexivity. }
  rewrite verifier_unfold by exact Hb.
  destruct (key_provider_no_gate_calls v o w s) as (a1 & Hc1 & Hf1).
  assert (Hnv : forall h key sg, ~ In (CallCreateVerify h key sg) a1)
    by (intros h key sg; apply provider_adds_no_verify; exact Hf1).
  unfold bind. destruct (key_provider v o w s) as [[k|ex] s1] eqn:Hk;
    cbn [snd] in Hc1.
  2:{ exists a1. split; [exact Hc1|]. intros h key sg Hin.
      destruct (Hnv h key sg Hin). }
  destruct (truthy k) eqn:Ht; cbn [negb].
  2:{ exists a1. rewrite fail_run. split; [exact Hc1|]. intros h key sg Hin.
      destruct (Hnv h key sg Hin). }
  assert (G : exists a2,
             calls (snd (gates v C o w rq k s1)) = (calls s1 ++ a2)%list
             /\ forall h key sg,
                  In (CallCreateVerify h key sg) a2 ->
                  key = or_default k ""
                  /\ h = request_hash C (selection v) o rq
                  /\ hash_header o rq = Some (HStr h)
                  /\ sg = signature_header o rq
                  /\ num_gt (time_delta o w rq) (Num (grace_period o)) = false).
  { destruct v; simpl gates; simpl selection;
      first [apply verify_request_verify_call|apply verify_request_0_verify_call]. }
  destruct G as (a2 & Hc2 & Hv2).
  exists (a1 ++ a2)%list. split; [rewrite Hc2, Hc1, app_assoc; reflexivity|].
  intros h key sg Hin. apply in_app_or in Hin. destruct Hin as [Hin|Hin].
  { destruct (Hnv h key sg Hin). }
  destruct (Hv2 h key sg Hin) as (K & H1 & H2 & H3 & H4).
  split; [reflexivity|].
  destruct k as [k0|]; [|discriminate Ht]. simpl in K. subst key.
  split; [split; [reflexivity|exact Ht]|]. repeat split; assumption.
Qed.

(** X18. A request that passes the freshness gate and whose hash header
    is a string other than the digest the verifier computes is answered
    400 with the kind [invalid request hash], whatever its signature. *)
Theorem hash_mismatch_rejected (v : revision) (C : crypto) (o : options)
    (w : world) (rq : request) (s : state) (k h sg : string) :
  bypassed v o w = false ->
  provides (key_provider v o w s) k ->
  is_string (hash_header o rq) = Some h ->
  is_string (signature_header o rq) = Some sg ->
  num_gt (time_delta o w rq) (Num (grace_period o)) = false ->
  h <> request_hash C (selection v) o rq ->
  rejects (verifier v C o w rq s) s 400 e_invalid_hash.
Proof.
  intros Hb Hk H1 H2 Hn Hh.
  pose proof (key_provider_resp v o w s) as Hr.
  rewrite (verifier_reaches_gates v C o w rq s k Hb Hk).
  eapply gates_hash_match; try eassumption.
  apply String.eqb_neq. congruence.
Qed.

Lemma hash_mismatch_rejected_witness :
  rejects (verifier index_js sample_crypto static_options (world_at 2000 refused)
             orders_wrong_hash fresh_state)
          fresh_state 400 e_invalid_hash.
Proof.
  refine (hash_mismatch_rejected index_js sample_crypto static_options
            (world_at 2000 refused) orders_wrong_hash fresh_state
            pem_key "[GET:::/refunds:::{}]" ("signed:" ++ orders_hash)
            eq_refl (conj eq_refl eq_refl) eq_refl eq_refl eq_refl _).
  vm_compute. intros F. discriminate F.
Defined.

(* ------------------------------------------------------------------ *)
(** ** What the selections select *)

Lemma obj_get_set {V} (o : jsobj V) k v k' :
  obj_get (obj_set o k v) k' = if String.eqb k k' then Some v else obj_get o k'.
Proof.
  induction o as [|[k0 v0] o IH]; simpl.
  - reflexivity.
  - destruct (String.eqb_spec k0 k) as [->|Hne]; simpl.
    + destruct (String.eqb k k'); reflexivity.
    + rewrite IH. destruct (String.eqb_spec k0 k') as [->|Hne'].
      * destruct (String.eqb_spec k k') as [->|]; [congruence|reflexivity].
      * reflexivity.
Qed.

Lemma obj_get_delete {V} (o : jsobj V) k k' :
  obj_get (obj_delete o k) k' = if String.eqb k k' then None else obj_get o k'.
Proof.
  induction o as [|[k0 v0] o IH]; simpl.
  - destruct (String.eqb k k'); reflexivity.
  - destruct (String.eqb_spec k0 k) as [->|Hne]; simpl.
    + rewrite IH. destruct (String.eqb k k'); reflexivity.
    + rewrite IH. destruct (String.eqb_spec k0 k') as [->|Hne'].
      * destruct (String.eqb_spec k k') as [->|]; [congruence|reflexivity].
      * reflexivity.
Qed.

Lemma obj_keys_set {V} (o : jsobj V) k v :
  obj_keys (obj_set o k v)
  = if mem k (obj_keys o) then obj_keys o else (obj_keys o ++ [k])%list.
Proof.
  unfold mem, obj_keys. induction o as [|[k0 v0] o IH]; simpl.
  - reflexivity.
  - rewrite (String.eqb_sym k k0).
    destruct (String.eqb k0 k); simpl; [reflexivity|].
    rewrite IH. destruct (existsb (String.eqb k) (map fst o)); reflexivity.
Qed.

Lemma mem_In k l : mem k l = true <-> In k l.
Proof.
  unfold mem. rewrite existsb_exists. split.
  - intros (x & Hin & E). apply String.eqb_eq in E. subst x. exact Hin.
  - intros Hin. exists k. split; [exact Hin|apply String.eqb_refl].
Qed.

Lemma obj_set_wf {V} (o : jsobj V) k v : obj_wf o -> obj_wf (obj_set o k v).
Proof.
  unfold obj_wf. intros Hwf. rewrite obj_keys_set.
  destruct (mem k (obj_keys o)) eqn:Hm; [exact Hwf|].
  apply NoDup_app; [exact Hwf|repeat constructor; intros []|].
  intros x Hx [<-|[]]. apply mem_In in Hx. congruence.
Qed.

Lemma whitelist_fold (hs : jsobj hval) (l : list string) : forall acc,
  obj_wf acc ->
  let sel := fold_left
               (fun _headers_to_verify header =>
                  match obj_get hs header with
                  | Some v => obj_set _headers_to_verify header v
                  | None => _headers_to_verify
                  end) l acc in
  obj_wf sel
  /\ forall k, obj_get sel k
               = if mem k l
                 then match obj_get hs k with
                      | Some v => Some v
                      | None => obj_get acc k
                      end
                 else obj_get acc k.
Proof.
  induction l as [|a l IH]; intros acc Hwf; simpl.
  - split; [exact Hwf|reflexivity].
  - assert (Hwf' : obj_wf (match obj_get hs a with
                           | Some v => obj_set acc a v
                           | None => acc
                           end))
      by (destruct (obj_get hs a); [apply obj_set_wf|]; exact Hwf).
    destruct (IH _ Hwf') as [W G]. split; [exact W|].
    intros k. rewrite G. unfold mem at 2. simpl. fold (mem k l).
    destruct (String.eqb_spec k a) as [->|Hne]; simpl.
    + destruct (obj_get hs a) as [v|] eqn:Ha.
      * rewrite obj_get_set, String.eqb_refl. destruct (mem a l); reflexivity.
      * destruct (mem a l); reflexivity.
    + destruct (obj_get hs a) as [v|] eqn:Ha; [|reflexivity].
      rewrite obj_get_set.
      destruct (String.eqb_spec a k) as [->|_]; [congruence|reflexivity].
Qed.

(** X14. The whitelist selection of [src/index.js] holds, for every name
    of [headers_to_verify] the request carries, the request's value under
    that name, and nothing else: a listed header the request lacks is left
    out, an unlisted header never gets in, and a name listed twice gives
    one entry. *)
Theorem whitelist_selects_listed_headers (o : options) (rq : request) :
  obj_wf (headers_to_verify_whitelist o rq)
  /\ forall k,
       obj_get (headers_to_verify_whitelist o rq) k
       = if mem k (headers_to_verify o) then obj_get (req_headers rq) k else None.
Proof.
  destruct (whitelist_fold (req_headers rq) (headers_to_verify o) [])
    as [W G]; [constructor|].
  split; [exact W|]. intros k.
  unfold headers_to_verify_whitelist. rewrite G.
  destruct (mem k (headers_to_verify o)); [|reflexivity].
  destruct (obj_get (req_headers rq) k); reflexivity.
Qed.

(** X15. The selection of [src/unnamed/part_000] holds every header of
    the request under its own value, except the hash header, the
    signature header, [connection] and [transfer-encoding], which it never
    holds: the time header, under any other name than these four, is part
    of what is hashed. *)
Theorem all_except_selects_other_headers (o : options) (rq : request) :
  (forall k,
     obj_get (headers_to_verify_all_except o rq) k
     = if mem k (excepted o) then None else obj_get (req_headers rq) k)
  /\ (obj_wf (req_headers rq) -> obj_wf (headers_to_verify_all_except o rq))
  /\ (mem (time (headers o)) (excepted o) = false ->
      obj_get (headers_to_verify_all_except o rq) (time (headers o))
      = obj_get (req_headers rq) (time (headers o))).
Proof.
  assert (G : forall k,
             obj_get (headers_to_verify_all_except o rq) k
             = if mem k (excepted o) then None else obj_get (req_headers rq) k).
  { intros k. unfold headers_to_verify_all_except, excepted, mem.
    rewrite !obj_get_delete. cbn [existsb].
    rewrite (String.eqb_sym k (hash (headers o))),
            (String.eqb_sym k (signature (headers o))),
            (String.eqb_sym k "connection"),
            (String.eqb_sym k "transfer-encoding").
    destruct (String.eqb (hash (headers o)) k),
             (String.eqb (signature (headers o)) k),
             (String.eqb "connection" k),
             (String.eqb "transfer-encoding" k); reflexivity. }
  split; [exact G|]. split.
  - intros Hwf. unfold headers_to_verify_all_except.
    repeat apply obj_delete_wf. exact Hwf.
  - intros Ht. rewrite G, Ht. reflexivity.
Qed.

(* ------------------------------------------------------------------ *)
(** ** Method and URL in the canonical string *)

Lemma string_length_append (a b : string) :
  String.length (a ++ b) = (String.length a + String.length b)%nat.
Proof. induction a as [|c a IH]; simpl; [reflexivity|rewrite IH; reflexivity]. Qed.

Lemma string_append_inv_head (x a b : string) : x ++ a = x ++ b -> a = b.
Proof.
  induction x as [|c x IH]; simpl; intros E; [exact E|].
  injection E as E. apply IH. exact E.
Qed.

Lemma string_append_inv_tail (a : string) : forall b x, a ++ x = b ++ x -> a = b.
Proof.
  induction a as [|c a IH]; intros [|d b] x E; simpl in E.
  - reflexivity.
  - apply (f_equal String.length) in E. simpl in E.
    rewrite string_length_append in E. lia.
  - apply (f_equal String.length) in E. simpl in E.
    rewrite string_length_append in E. lia.
  - injection E as -> E. f_equal. apply (IH b x). exact E.
Qed.

(** X16. Over the same selected headers, a change of the method alone or
    of the URL alone changes the canonical string: two requests with the
    same canonical string and the same URL have the same method, and two
    with the same canonical string and the same method have the same
    URL. *)
Theorem method_or_url_alone_changes_canonical_string (rq1 rq2 : request)
    (h : jsobj hval) :
  request_as_string rq1 h = request_as_string rq2 h ->
  (url rq1 = url rq2 -> method rq1 = method rq2)
  /\ (method rq1 = method rq2 -> url rq1 = url rq2).
Proof.
  unfold request_as_string. simpl. intros E. split.
  - intros Hu. rewrite Hu in E.
    apply (string_append_inv_tail _ _ _ E).
  - intros Hm. rewrite Hm in E.
    apply string_append_inv_head in E. simpl in E.
    injection E as E.
    apply (string_append_inv_tail _ _ _ E).
Qed.

Lemma method_or_url_alone_changes_canonical_string_witness :
  request_as_string signed_orders [] = request_as_string orders_without_hash []
  /\ method signed_orders = method orders_without_hash.
Proof.
  split; [reflexivity|].
  exact (proj1 (method_or_url_alone_changes_canonical_string signed_orders
                  orders_without_hash [] eq_refl) eq_refl).
Defined.

(* ------------------------------------------------------------------ *)
(** ** The first header gate and the fresh key *)

(** X19. In the three revisions with header gates, a request that has no
    hash header is answered 400 with the kind
    [missing or malformed request hash] whatever else it carries, and
    nothing is serialised, hashed or checked for it. *)
Theorem hash_header_gate_comes_first (v : revision) (C : crypto) (o : options)
    (w : world) (rq : request) (s : state) (k : string) :
  v <> part_000_first ->
  bypassed v o w = false ->
  provides (key_provider v o w s) k ->
  hash_header o rq = None ->
  rejects (verifier v C o w rq s) s 400 e_missing_hash
  /\ calls (snd (verifier v C o w rq s)) = calls (snd (key_provider v o w s)).
Proof.
  intros Hv Hb Hk H0.
  assert (H1 : is_string (hash_header o rq) = None) by (rewrite H0; reflexivity).
  rewrite (verifier_reaches_gates v C o w rq s k Hb Hk).
  pose proof (key_provider_resp v o w s) as Hr.
  destruct v; try congruence; simpl gates;
    rewrite (gate_hash_header _ _ _ _ _ _ _ _ H1);
    (split; [apply fail_rejects; exact Hr|rewrite fail_run; reflexivity]).
Qed.

Lemma hash_header_gate_comes_first_witness :
  hash_header static_options orders_without_hash = None
  /\ rejects (verifier part_001 sample_crypto static_options (world_at 2000 refused)
                orders_without_hash fresh_state)
             fresh_state 400 e_missing_hash
  /\ calls (snd (verifier part_001 sample_crypto static_options
                   (world_at 2000 refused) orders_without_hash fresh_state))
     = [CallGetPublicKey].
Proof.
  split; [reflexivity|].
  refine (hash_header_gate_comes_first part_001 sample_crypto static_options
            (world_at 2000 refused) orders_without_hash fresh_state pem_key
            _ eq_refl (conj eq_refl eq_refl) eq_refl).
  discriminate.
Defined.

(** X20. When a key provider has to fetch and the endpoint answers with a
    success status and a non-empty body, the body is returned as the key
    for this very call, the cache holds it, and the time of the last
    update is the clock reading taken before the fetch was started. *)
Theorem fetched_key_cached_and_used (v : revision) (C : crypto) (o : options)
    (w : world) (rq : request) (s : state) (status : Z) (c : ascii) (t : string) :
  bypassed v o w = false ->
  truthy (public_key o) = false ->
  must_fetch o w s = true ->
  fetch_reply w = FetchResponds true status (Ret (String c t)) ->
  provides (key_provider v o w s) (String c t)
  /\ fetched_public_key (snd (verifier v C o w rq s)) = Some (String c t)
  /\ last_public_key_update (snd (verifier v C o w rq s)) = now_get_public_key w
  /\ verifier v C o w rq s
     = gates v C o w rq (Some (String c t))
         (with_cache s (Some (String c t)) (now_get_public_key w)
            [CallGetPublicKey; CallFetch (public_key_endpoint o)]).
Proof.
  intros Hb Hk Hm Hf.
  assert (E : key_provider v o w s
              = (Ret (Some (String c t)),
                 with_cache s (Some (String c t)) (now_get_public_key w)
                   [CallGetPublicKey; CallFetch (public_key_endpoint o)])).
  { rewrite key_provider_run.
    destruct v; rewrite ?get_public_key_run, ?get_public_key_0_run, Hk, Hm, Hf;
      reflexivity. }
  assert (Hp : provides (key_provider v o w s) (String c t))
    by (rewrite E; split; reflexivity).
  split; [exact Hp|].
  rewrite (verifier_reaches_gates v C o w rq s _ Hb Hp), E. cbn [snd].
  destruct (gates_frame v C o w rq (Some (String c t))
              (with_cache s (Some (String c t)) (now_get_public_key w)
                 [CallGetPublicKey; CallFetch (public_key_endpoint o)]))
    as (F & L & _).
  split; [exact F|]. split; [exact L|reflexivity].
Qed.

Lemma fetched_key_cached_and_used_witness :
  fetched_public_key
    (snd (verifier index_js sample_crypto endpoint_options
            (world_at 7000 (FetchResponds true 200 (Ret pem_key))) signed_orders
            fresh_state))
  = Some pem_key
  /\ last_public_key_update
       (snd (verifier index_js sample_crypto endpoint_options
               (world_at 7000 (FetchResponds true 200 (Ret pem_key))) signed_orders
               fresh_state))
     = 7000.
Proof.
  pose proof (fetched_key_cached_and_used index_js sample_crypto endpoint_options
                (world_at 7000 (FetchResponds true 200 (Ret pem_key))) signed_orders
                fresh_state 200 "-"%char "----BEGIN PUBLIC KEY-----"
                eq_refl eq_refl eq_refl eq_refl) as (_ & H1 & H2 & _).
  split; [exact H1|exact H2].
Defined.
